(** * kTBS resource locking: named semaphores, reentrant scoped locks

    A shallow embedding of [lib/ktbs/engine/lock.py] (the functions
    [get_semaphore_name], [reset_lock] and the class [WithLockMixin]) and of
    the locking part of [lib/ktbs/engine/base.py] ([get_lock], [Base.delete]).

    The Python code talks to three pieces of mutable state:
    - the POSIX named semaphores of the host (a name space binding names to
      kernel semaphore objects, each object carrying a counter);
    - the attribute [__locking_thread_id] of every resource object;
    - the resources themselves ([resource.state], and the "deleted" mark that
      [rdfrest.local._mark_as_deleted] leaves on a cached resource).

    All three live in one [State] record that every operation threads
    explicitly.  An operation also returns the trace of the primitive steps
    it performed, each with the state it left behind, so that the order of
    semaphore operations and the intermediate states can be talked about.

    The model follows ONE execution context through a call.  Nothing else
    runs while a call is in progress, so [acquire] on a semaphore whose
    counter is 0 waits for its whole timeout and raises [BusyError]; the
    identity of the calling thread ([current_thread().ident]) is the
    parameter [tid] of the operations. *)

From Stdlib Require Import ZArith QArith Ascii DecimalString.
From stdpp Require Import base gmap strings list.

(** ** Exceptions and outcomes *)

(** The exceptions that travel through the locking code.  [posix_ipc.BusyError]
    and [TypeError] are the two that [WithLockMixin.lock] raises itself;
    [ExistentialError] is what [posix_ipc] raises when a name is not bound,
    [ValueError] what it raises for a name that the system refuses;
    [Exception] stands for anything else a protected body may raise. *)
Inductive Exn : Type :=
| BusyError (msg : string)
| TypeError (msg : string)
| ExistentialError (msg : string)
| ValueError (msg : string)
| Exception (msg : string).

Inductive Outcome (A : Type) : Type :=
| Return (a : A)
| Raise (e : Exn).
Arguments Return {A} a.
Arguments Raise {A} e.

(** ** Semaphores, events and the state *)

(** A [posix_ipc.Semaphore] object: the name it was opened with and the kernel
    object it refers to.  A handle stays valid after the name is unlinked. *)
Record Semaphore : Type := mkSemaphore { name : string; sid : nat }.

(** An RDF triple; a resource's state is a graph, here a list of triples. *)
Definition Triple : Type := string * string * string.

Record State : Type := mkState {
  sem_names : gmap string nat;          (* name -> kernel semaphore object *)
  sem_values : gmap nat N;              (* kernel semaphore object -> counter *)
  sem_next : nat;                       (* next unused kernel object *)
  locking_thread_id : gmap string Z;    (* resource -> __locking_thread_id; unbound is None *)
  graphs : gmap string (list Triple);   (* resource -> resource.state *)
  deleted : gset string                 (* resources marked as deleted *)
}.

Inductive Event : Type :=
| EvOpen (sem : Semaphore) (created : bool)
| EvAcquire (sem : Semaphore)
| EvBusy (sem : Semaphore) (timeout : Q)
| EvRelease (sem : Semaphore)
| EvClose (sem : Semaphore)
| EvUnlink (sem : Semaphore)
| EvHolder (uri : string) (holder : option Z)
| EvMarkDeleted (uri : string)
| EvSuper (method uri : string).

(** A trace: every primitive step with the state right after it. *)
Definition Trace : Type := list (Event * State).

Definition events (t : Trace) : list Event := t.*1.

(** ** The monad of operations *)

Definition M (A : Type) : Type := State → Outcome A * State * Trace.

Definition ret {A} (a : A) : M A := λ s, (Return a, s, []).

Definition bind {A B} (m : M A) (k : A → M B) : M B := λ s,
  match m s with
  | (Return a, s1, t1) =>
      match k a s1 with
      | (r, s2, t2) => (r, s2, t1 ++ t2)
      end
  | (Raise e, s1, t1) => (Raise e, s1, t1)
  end.

#[export] Instance M_ret : MRet M := @ret.
#[export] Instance M_bind : MBind M := λ A B k m, bind m k.

Definition raise {A} (e : Exn) : M A := λ s, (Raise e, s, []).

(** [try: m finally: fin].  [fin] runs whatever [m] did; the outcome of [m]
    stands unless [fin] raises itself. *)
Definition try_finally {A} (m : M A) (fin : M unit) : M A := λ s,
  match m s with
  | (r, s1, t1) =>
      match fin s1 with
      | (Return _, s2, t2) => (r, s2, t1 ++ t2)
      | (Raise e, s2, t2) => (Raise e, s2, t1 ++ t2)
      end
  end.

(** [try: m except posix_ipc.BusyError: handler]. *)
Definition try_except_BusyError {A} (m : M A) (handler : M A) : M A := λ s,
  match m s with
  | (Raise (BusyError _), s1, t1) =>
      match handler s1 with
      | (r, s2, t2) => (r, s2, t1 ++ t2)
      end
  | other => other
  end.

(** The three projections of a run. *)
Definition outcome_of {A} (r : Outcome A * State * Trace) : Outcome A := r.1.1.
Definition state_of {A} (r : Outcome A * State * Trace) : State := r.1.2.
Definition trace_of {A} (r : Outcome A * State * Trace) : Trace := r.2.

(** ** State updates *)

Definition set_semaphores (names : gmap string nat) (values : gmap nat N)
    (next : nat) (s : State) : State :=
  mkState names values next (locking_thread_id s) (graphs s) (deleted s).

Definition set_sem_value (i : nat) (v : N) (s : State) : State :=
  set_semaphores (sem_names s) (<[i:=v]> (sem_values s)) (sem_next s) s.

Definition set_locking_thread_id (uri : string) (v : option Z) (s : State) : State :=
  mkState (sem_names s) (sem_values s) (sem_next s)
          (match v with
           | Some t => <[uri:=t]> (locking_thread_id s)
           | None => delete uri (locking_thread_id s)
           end)
          (graphs s) (deleted s).

Definition set_deleted (uri : string) (s : State) : State :=
  mkState (sem_names s) (sem_values s) (sem_next s) (locking_thread_id s)
          (graphs s) ({[uri]} ∪ deleted s).

(** The counter of the kernel object behind a handle ([semaphore.value]). *)
Definition value (s : State) (sem : Semaphore) : N :=
  default 0%N (sem_values s !! sid sem).

(** [resource.state], the empty graph for a resource that is gone. *)
Definition state (s : State) (resource : string) : list Triple :=
  default [] (graphs s !! resource).

(** ** posix_ipc primitives *)

(** ['c' in s]. *)
Fixpoint char_in (c : ascii) (s : string) : bool :=
  match s with
  | EmptyString => false
  | String c' rest => if decide (c' = c) then true else char_in c rest
  end.

(** A name without its leading slashes. *)
Fixpoint strip_slashes (nm : string) : string :=
  match nm with
  | EmptyString => EmptyString
  | String c rest => if decide (c = "/"%char) then strip_slashes rest else nm
  end.

(** The longest name, leading slash apart, that Linux takes for a semaphore
    ([NAME_MAX - 4]). *)
Definition SEM_NAME_MAX : nat := 251.

(** The names that [sem_open] refuses, with the [ValueError] that [posix_ipc]
    makes of the refusal: nothing after the leading slash or a slash further
    on ([EINVAL]), more than [SEM_NAME_MAX] characters ([ENAMETOOLONG]). *)
Definition name_error (nm : string) : option Exn :=
  let body := strip_slashes nm in
  if decide (body = EmptyString) then Some (ValueError "Invalid parameter(s)")
  else if char_in "/" body then Some (ValueError "Invalid parameter(s)")
  else if decide (SEM_NAME_MAX < String.length body)
       then Some (ValueError "The name is too long")
       else None.

(** [posix_ipc.Semaphore(name, flags=O_CREAT, initial_value=v)]: a
    [ValueError] for a name that the system refuses; otherwise the object
    bound to [name] if there is one, whatever its counter, and else a new
    object with counter [v], bound to [name].  (That the system runs out of
    semaphores or of file descriptors is not modelled.) *)
Definition Semaphore_O_CREAT (nm : string) (initial_value : N) : M Semaphore := λ s,
  match name_error nm with
  | Some e => (Raise e, s, [])
  | None =>
      match sem_names s !! nm with
      | Some i =>
          let sem := mkSemaphore nm i in
          (Return sem, s, [(EvOpen sem false, s)])
      | None =>
          let i := sem_next s in
          let sem := mkSemaphore nm i in
          let s' := set_semaphores (<[nm:=i]> (sem_names s))
                                   (<[i:=initial_value]> (sem_values s)) (S i) s in
          (Return sem, s', [(EvOpen sem true, s')])
      end
  end.

(** [semaphore.acquire(timeout)]: decrements a positive counter; on a counter
    of 0 nobody else runs to release it, the wait times out. *)
Definition acquire (sem : Semaphore) (timeout : Q) : M unit := λ s,
  if decide (value s sem = 0%N)
  then (Raise (BusyError "Semaphore is busy"), s, [(EvBusy sem timeout, s)])
  else let s' := set_sem_value (sid sem) (N.pred (value s sem)) s in
       (Return (), s', [(EvAcquire sem, s')]).

(** [semaphore.release()]. *)
Definition release (sem : Semaphore) : M unit := λ s,
  let s' := set_sem_value (sid sem) (N.succ (value s sem)) s in
  (Return (), s', [(EvRelease sem, s')]).

(** [semaphore.close()]. *)
Definition close (sem : Semaphore) : M unit := λ s,
  (Return (), s, [(EvClose sem, s)]).

(** [semaphore.unlink()]: removes the name; the kernel object lives on for
    the handles that are still open. *)
Definition unlink (sem : Semaphore) : M unit := λ s,
  match sem_names s !! name sem with
  | Some _ =>
      let s' := set_semaphores (delete (name sem) (sem_names s))
                               (sem_values s) (sem_next s) s in
      (Return (), s', [(EvUnlink sem, s')])
  | None => (Raise (ExistentialError "No semaphore exists with the specified name"), s, [])
  end.

(** [semaphore.value]. *)
Definition get_value (sem : Semaphore) : M N := λ s, (Return (value s sem), s, []).

(** ** Resource primitives *)

(** Reading [self.__locking_thread_id]. *)
Definition get_locking_thread_id (self : string) : M (option Z) := λ s,
  (Return (locking_thread_id s !! self), s, []).

(** Assigning [self.__locking_thread_id]. *)
Definition assign_locking_thread_id (self : string) (v : option Z) : M unit := λ s,
  let s' := set_locking_thread_id self v s in
  (Return (), s', [(EvHolder self v, s')]).

(** [len(resource.state)]. *)
Definition len_state (resource : string) : M nat := λ s,
  (Return (length (state s resource)), s, []).

(** [rdfrest.local._mark_as_deleted(resource)]. *)
Definition _mark_as_deleted (resource : string) : M unit := λ s,
  let s' := set_deleted resource s in
  (Return (), s', [(EvMarkDeleted resource, s')]).

(** ** lock.py *)

(** [str.replace(old, new)] for one-character [old] and [new]. *)
Fixpoint replace (old new : ascii) (s : string) : string :=
  match s with
  | EmptyString => EmptyString
  | String c rest => String (if decide (c = old) then new else c) (replace old new rest)
  end.

(** [get_semaphore_name(resource_uri)]:
    [str('/' + resource_uri.replace('/', '-'))]. *)
Definition get_semaphore_name (resource_uri : string) : string :=
  "/" +:+ replace "/" "-" resource_uri.

(** [reset_lock(resource_uri)]. *)
Definition reset_lock (resource_uri : string) : M unit :=
  semaphore ← Semaphore_O_CREAT (get_semaphore_name resource_uri) 1;
  v ← get_value semaphore;
  if decide (v = 0%N)
  then release semaphore;; close semaphore
  else mret ().

(** Python's [str.format] of a thread identifier (an integer). *)
Definition format_ident (t : Z) : string := NilZero.string_of_int (Z.to_int t).

(** [self.__locking_thread_id if self.__locking_thread_id else 'Unknown']:
    [None] and 0 are falsy. *)
Definition thread_id_text (holder : option Z) : string :=
  match holder with
  | Some t => if decide (t = 0%Z) then "Unknown" else format_ident t
  | None => "Unknown"
  end.

(** ['The resource <{res_uri}> is locked by thread {thread_id}.'.format(...)]. *)
Definition busy_message (res_uri : string) (holder : option Z) : string :=
  "The resource <" +:+ res_uri +:+ "> is locked by thread " +:+ thread_id_text holder +:+ ".".

(** ['The resource <{uri}> no longer exists.'.format(uri=resource.get_uri())]. *)
Definition stale_message (uri : string) : string :=
  "The resource <" +:+ uri +:+ "> no longer exists.".

(** The class [WithLockMixin]. *)
Module WithLockMixin.

(** [WithLockMixin.LOCK_DEFAULT_TIMEOUT]. *)
Definition LOCK_DEFAULT_TIMEOUT : Q := 60.

(** [WithLockMixin._get_semaphore(self)]. *)
Definition _get_semaphore (self : string) : M Semaphore :=
  Semaphore_O_CREAT (get_semaphore_name self) 1.

(** [WithLockMixin.lock(self, resource, timeout=None)], a context manager:
    [body] is what runs at the [yield], and an exception of [body] is raised
    at the [yield]. *)
Definition lock {A} (tid : Z) (self resource : string) (timeout : option Q)
    (body : M A) : M A :=
  let timeout := default LOCK_DEFAULT_TIMEOUT timeout in
  holder ← get_locking_thread_id self;
  if decide (holder = Some tid) then
    body
  else
    semaphore ← _get_semaphore self;
    try_except_BusyError
      (acquire semaphore timeout;;
       assign_locking_thread_id self (Some tid);;
       try_finally
         (n ← len_state resource;
          (if decide (n = 0)
           then _mark_as_deleted resource;; raise (TypeError (stale_message resource))
           else mret ());;
          body)
         (assign_locking_thread_id self None;;
          release semaphore;;
          close semaphore))
      (holder ← get_locking_thread_id self;
       raise (BusyError (busy_message self holder))).

(** [WithLockMixin.edit], a context manager:
    [with self.lock(self), super().edit(parameters, clear, _trust) as editable:
       yield editable].
    The inherited [edit] is a context manager too: it is given the body, which
    it runs with the editable graph it yields. *)
Definition edit {E A} (tid : Z) (self : string) (super_edit : (E → M A) → M A)
    (body : E → M A) : M A :=
  lock tid self self None (super_edit body).

(** [WithLockMixin.post_graph]: [with self.lock(self): return super().post_graph(...)]. *)
Definition post_graph {A} (tid : Z) (self : string) (super_post_graph : M A) : M A :=
  lock tid self self None super_post_graph.

(** [WithLockMixin.create]: [super().create(service, uri, new_graph)] and then
    [reset_lock(uri)]. *)
Definition create (uri : string) (super_create : M unit) : M unit :=
  super_create;; reset_lock uri.

Section WithRoot.

(** [get_root()]: the root resource of a resource. *)
Variable get_root : string → string.

(** [WithLockMixin.delete]:
    [with root.lock(self), self.lock(self): super().delete(...)]. *)
Definition delete (tid : Z) (self : string) (super_delete : M unit) : M unit :=
  let root := get_root self in
  lock tid root self None (lock tid self self None super_delete).

End WithRoot.

(** [WithLockMixin.ack_delete]: [super().ack_delete(parameters)] and then
    [self._get_semaphore().unlink()]. *)
Definition ack_delete (self : string) (super_ack_delete : M unit) : M unit :=
  super_ack_delete;;
  semaphore ← _get_semaphore self;
  unlink semaphore.

End WithLockMixin.

(** ** rdflib graphs *)

(** Reading [self.state]. *)
Definition get_state (self : string) : M (list Triple) := λ s,
  (Return (state s self), s, []).

(** [graph.value(subject, predicate)]: the object of the first triple with
    this subject and predicate, [None] when there is none. *)
Definition Graph_value (g : list Triple) (subject predicate : string) : option string :=
  (λ t : Triple, t.2)
    <$> List.find (λ t : Triple, bool_decide (t.1.1 = subject ∧ t.1.2 = predicate)) g.

(** [graph.objects(subject, predicate)]. *)
Definition Graph_objects (g : list Triple) (subject predicate : string) : list string :=
  (λ t : Triple, t.2)
    <$> List.filter (λ t : Triple, bool_decide (t.1.1 = subject ∧ t.1.2 = predicate)) g.

(** What runs inside [with ... .edit() as editable]: the editable graph is
    threaded through. *)
Definition Editing (A : Type) : Type := list Triple → Outcome A * list Triple.

(** [editable.add(triple)]: a graph is a set of triples. *)
Definition Graph_add (t : Triple) : Editing unit := λ editable,
  (Return (), if bool_decide (t ∈ editable) then editable else editable ++ [t]).

(** [editable.remove(triple)]. *)
Definition Graph_remove (t : Triple) : Editing unit := λ editable,
  (Return (), List.filter (λ t' : Triple, bool_decide (t' ≠ t)) editable).

(** ** base.py *)

(** [get_lock(base_name, timeout=30)], a context manager. *)
Definition get_lock {A} (base_name : string) (timeout : option Q) (body : M A) : M A :=
  let timeout := default (30 : Q) timeout in
  let sem_name := "/" +:+ replace "/" "-" base_name in
  base_semaphore ← Semaphore_O_CREAT sem_name 1;
  acquire base_semaphore timeout;;
  try_finally body (release base_semaphore).

(** The class [Base]. *)
Module Base.

(** [Base.delete]: [with get_lock(self.uri): super().delete(...)]. *)
Definition delete (self : string) (super_delete : M unit) : M unit :=
  get_lock self None super_delete.

(** [Base.ack_delete]: the inherited [ack_delete], then the edition of the
    root, which loses the triple that lists the base and the triple that
    types it.  [root_edit] is [root.edit(_trust=True)]; [KTBS.hasBase],
    [RDF.type] and [RDF_MAIN_TYPE] ([KTBS.Base]) are constants of modules
    that are not among the sources. *)
Definition ack_delete (get_root : string → string)
    (KTBS_hasBase RDF_type RDF_MAIN_TYPE : string) (self : string)
    (super_ack_delete : M unit) (root_edit : string → Editing unit → M unit) : M unit :=
  super_ack_delete;;
  let root := get_root self in
  root_edit root
    (λ editable,
       match Graph_remove (root, KTBS_hasBase, self) editable with
       | (Return _, editable1) => Graph_remove (self, RDF_type, RDF_MAIN_TYPE) editable1
       | (Raise e, editable1) => (Raise e, editable1)
       end).

(** [Base.check_deletable]: the inherited diagnosis, with one more message
    when [self.state.value(self.uri, KTBS.contains)] is true.  [truth] is the
    truth value that [rdflib] gives a node (a URI by its text, a literal by
    its value); [None] is false.  [KTBS.contains] comes from
    [ktbs.namespace], which is not among the sources. *)
Definition check_deletable (KTBS_contains : string) (truth : string → bool)
    (self : string) (super_check_deletable : M (list string)) : M (list string) :=
  diag ← super_check_deletable;
  g ← get_state self;
  if from_option truth false (Graph_value g self KTBS_contains)
  then mret (diag ++ ["Can not delete non-empty Base"])
  else mret diag.

Section AckPost.

(** [KTBS_NS_URI], [KTBS.contains], [RDF.type] and the four types
    [(KTBS.TraceModel, KTBS.Method, KTBS.StoredTrace, KTBS.ComputedTrace)]:
    constants of modules that are not among the sources. *)
Variable KTBS_NS_URI : string.
Variable KTBS_contains : string.
Variable RDF_type : string.
Variable KTBS_types : list string.

(** The loop of [Base.ack_post] over [new_graph.objects(created, RDF.type)],
    with its [break] and its [else] clause.  The [assert] statements are
    taken as executed (Python not run with [-O]); a failed one raises
    [AssertionError], here an [Exception] with that text. *)
Fixpoint ack_post_types (created : string) (types : list string) : Editing unit :=
  match types with
  | [] =>
      λ editable,
        (Raise (Exception "AssertionError: No valid rdf:type was found for posted resource"),
         editable)
  | typ :: rest =>
      if String.prefix KTBS_NS_URI typ
      then (if bool_decide (typ ∈ KTBS_types)
            then Graph_add (created, RDF_type, typ)
            else λ editable, (Raise (Exception "AssertionError"), editable))
      else ack_post_types created rest
  end.

(** The body of the [with self.edit(_trust=True) as editable] of
    [Base.ack_post]. *)
Definition ack_post_editing (self created : string) (new_graph : list Triple)
    : Editing unit :=
  λ editable,
    match Graph_add (self, KTBS_contains, created) editable with
    | (Return _, editable1) =>
        ack_post_types created (Graph_objects new_graph created RDF_type) editable1
    | (Raise e, editable1) => (Raise e, editable1)
    end.

(** [Base.ack_post]: the inherited [ack_post], then the edition of [self];
    [self_edit] is [self.edit(_trust=True)]. *)
Definition ack_post (self created : string) (new_graph : list Triple)
    (super_ack_post : M unit) (self_edit : Editing unit → M unit) : M unit :=
  super_ack_post;;
  self_edit (ack_post_editing self created new_graph).

End AckPost.

End Base.

(** ** Auxiliary definitions for the statements *)

(** [n] further scopes on the same resource, each with its own target
    resource and timeout, around one body. *)
Fixpoint lock_nested {A} (tid : Z) (self : string) (scopes : list (string * option Q))
    (body : M A) : M A :=
  match scopes with
  | [] => body
  | (resource, timeout) :: inner =>
      WithLockMixin.lock tid self resource timeout (lock_nested tid self inner body)
  end.

(** The state in which the body starts: semaphore decremented, holder
    recorded. *)
Definition entered (tid : Z) (self : string) (sem : Semaphore) (s1 : State) : State :=
  set_locking_thread_id self (Some tid)
    (set_sem_value (sid sem) (N.pred (value s1 sem)) s1).

(** The state the [finally] clause leaves: holder cleared, semaphore
    incremented. *)
Definition exited (self : string) (sem : Semaphore) (s3 : State) : State :=
  set_sem_value (sid sem) (N.succ (value s3 sem)) (set_locking_thread_id self None s3).

(** What the [except posix_ipc.BusyError] clause makes of an outcome that
    reaches it after the [finally] clause has cleared the holder. *)
Definition reraised {A} (self : string) (r : Outcome A) : Outcome A :=
  match r with
  | Raise (BusyError _) => Raise (BusyError (busy_message self None))
  | _ => r
  end.

(** The steps of [WithLockMixin.lock] before its body. *)
Definition entry_trace (tid : Z) (self : string) (sem : Semaphore) (s1 : State) : Trace :=
  [(EvAcquire sem, set_sem_value (sid sem) (N.pred (value s1 sem)) s1);
   (EvHolder self (Some tid), entered tid self sem s1)].

(** The steps of the [finally] clause. *)
Definition exit_trace (self : string) (sem : Semaphore) (s3 : State) : Trace :=
  [(EvHolder self None, set_locking_thread_id self None s3);
   (EvRelease sem, exited self sem s3);
   (EvClose sem, exited self sem s3)].

(** The state in which a new semaphore is bound to [nm]. *)
Definition created (nm : string) (s : State) : State :=
  set_semaphores (<[nm:=sem_next s]> (sem_names s))
                 (<[sem_next s:=1%N]> (sem_values s)) (S (sem_next s)) s.

(** The names of the semaphores acquired along a trace, in order. *)
Definition acquired (t : Trace) : list string :=
  omap (λ e, match e with EvAcquire sem => Some (name sem) | _ => None end) (events t).

(** What a trace shows of one lock: each step with the holder record of
    [self] and the counter of [sem] right after it. *)
Definition points (self : string) (sem : Semaphore) (t : Trace)
    : list (Event * option Z * N) :=
  (λ p, (p.1, locking_thread_id p.2 !! self, value p.2 sem)) <$> t.

(** ** Concrete resources and states *)

(** A root, a base in it, and the thread identifiers 7 (the caller) and 9. *)
Definition root_uri : string := "http://h/".
Definition base_uri : string := "http://h/b1/".
Definition root_of (uri : string) : string := root_uri.

Definition root_graph : list Triple := [(root_uri, "ktbs:hasBase", base_uri)].
Definition base_graph : list Triple := [(base_uri, "rdf:type", "ktbs:Base")].

(** An inherited method that only leaves its mark in the trace. *)
Definition call_super (method uri : string) : M unit := λ s,
  (Return (), s, [(EvSuper method uri, s)]).

(** No semaphore yet, both resources exist. *)
Definition s_fresh : State :=
  mkState ∅ ∅ 0 ∅ (<[base_uri:=base_graph]> (<[root_uri:=root_graph]> ∅)) ∅.

(** The semaphore of the base at [c], the base's holder record at [holder]. *)
Definition s_base (c : N) (holder : option Z) (graph : list Triple) : State :=
  mkState (<[get_semaphore_name base_uri:=0]> ∅) (<[0:=c]> ∅) 1
          (match holder with Some t => <[base_uri:=t]> ∅ | None => ∅ end)
          (<[base_uri:=graph]> (<[root_uri:=root_graph]> ∅)) ∅.

(** An inherited [edit] that applies the edition to the state of the
    resource. *)
Definition plain_edit (uri : string) (editing : Editing unit) : M unit := λ s,
  let s' := mkState (sem_names s) (sem_values s) (sem_next s) (locking_thread_id s)
                    (<[uri:=(editing (state s uri)).2]> (graphs s)) (deleted s) in
  ((editing (state s uri)).1, s', [(EvSuper "edit" uri, s')]).

(** [n] times the letter a, in front of [s]. *)
Fixpoint letters (n : nat) (s : string) : string :=
  match n with
  | 0 => s
  | S n' => String "a" (letters n' s)
  end.

(** An identifier of 260 characters. *)
Definition long_uri : string := "http://h/" +:+ letters 250 "/".

(** A truth value for the nodes of the concrete runs: the text of a URI is
    true when it is not empty, the literal 0 is false. *)
Definition nonzero (o : string) : bool :=
  bool_decide (o ≠ EmptyString ∧ o ≠ "0").

(** The semaphore of the base. *)
Definition base_sem : Semaphore := mkSemaphore "/http:--h-b1-" 0.

(** The semaphore of the root, when it is created first. *)
Definition root_sem : Semaphore := mkSemaphore "/http:--h-" 0.

(** ** Running the primitives *)

Lemma bind_Return {A B} (m : M A) (k : A → M B) s a s1 t1 :
  m s = (Return a, s1, t1) →
  (m ≫= k) s = (outcome_of (k a s1), state_of (k a s1), t1 ++ trace_of (k a s1)).
Proof.
  intros Hm. unfold mbind, M_bind, bind. rewrite Hm.
  by destruct (k a s1) as [[r s2] t2].
Qed.

Lemma bind_Raise {A B} (m : M A) (k : A → M B) s e s1 t1 :
  m s = (Raise e, s1, t1) → (m ≫= k) s = (Raise e, s1, t1).
Proof. intros Hm. unfold mbind, M_bind, bind. by rewrite Hm. Qed.

Lemma run_eta {A} (r : Outcome A * State * Trace) :
  r = (outcome_of r, state_of r, trace_of r).
Proof. by destruct r as [[? ?] ?]. Qed.

(** The holder record after an assignment. *)
Lemma lookup_set_locking_thread_id uri v s :
  locking_thread_id (set_locking_thread_id uri v s) !! uri = v.
Proof.
  destruct v; simpl; [apply lookup_insert_eq | apply lookup_delete_eq].
Qed.

Lemma value_set_sem_value sem v s : value (set_sem_value (sid sem) v s) sem = v.
Proof. unfold value; simpl. by rewrite lookup_insert_eq. Qed.

Lemma value_set_locking_thread_id uri v s sem :
  value (set_locking_thread_id uri v s) sem = value s sem.
Proof. reflexivity. Qed.

(** ** The reentrant path *)

(** When the recorded holder is the calling thread, [WithLockMixin.lock] is its body. *)
Lemma lock_reentrant {A} tid self resource timeout (body : M A) s :
  locking_thread_id s !! self = Some tid →
  WithLockMixin.lock tid self resource timeout body s = body s.
Proof.
  intros Hh. unfold WithLockMixin.lock, mbind, M_bind, bind, get_locking_thread_id.
  rewrite Hh, decide_True by done.
  by destruct (body s) as [[r s1] t1].
Qed.

Lemma lock_nested_reentrant {A} tid self scopes (body : M A) s :
  locking_thread_id s !! self = Some tid →
  lock_nested tid self scopes body s = body s.
Proof.
  intros Hh. induction scopes as [|[resource timeout] inner IH]; simpl; [done|].
  by rewrite lock_reentrant.
Qed.

(** ** The path through the semaphore *)

Lemma state_graphs s1 s resource :
  graphs s1 = graphs s → state s1 resource = state s resource.
Proof. unfold state. by intros ->. Qed.

Lemma state_entered tid self resource sem s1 :
  state (set_locking_thread_id self (Some tid)
           (set_sem_value (sid sem) (N.pred (value s1 sem)) s1)) resource
  = state s1 resource.
Proof. reflexivity. Qed.

Lemma Semaphore_O_CREAT_accepted nm v s sem s1 t1 :
  Semaphore_O_CREAT nm v s = (Return sem, s1, t1) → name_error nm = None.
Proof. unfold Semaphore_O_CREAT. by destruct (name_error nm). Qed.

Lemma Semaphore_O_CREAT_refused nm v s e :
  name_error nm = Some e → Semaphore_O_CREAT nm v s = (Raise e, s, []).
Proof. intros H. unfold Semaphore_O_CREAT. by rewrite H. Qed.

Lemma _get_semaphore_returns self s :
  name_error (get_semaphore_name self) = None →
  ∃ sem s1 t1, WithLockMixin._get_semaphore self s = (Return sem, s1, t1)
    ∧ name sem = get_semaphore_name self
    ∧ locking_thread_id s1 = locking_thread_id s
    ∧ graphs s1 = graphs s
    ∧ deleted s1 = deleted s.
Proof.
  intros Hok. unfold WithLockMixin._get_semaphore, Semaphore_O_CREAT. rewrite Hok.
  destruct (sem_names s !! get_semaphore_name self) as [i|]; eauto 10.
Qed.

Lemma _get_semaphore_frame self s sem s1 t1 :
  WithLockMixin._get_semaphore self s = (Return sem, s1, t1) →
  name sem = get_semaphore_name self
  ∧ locking_thread_id s1 = locking_thread_id s
  ∧ graphs s1 = graphs s
  ∧ deleted s1 = deleted s.
Proof.
  intros H.
  destruct (_get_semaphore_returns self s (Semaphore_O_CREAT_accepted _ _ _ _ _ _ H))
    as (sem' & s1' & t1' & H' & ?).
  rewrite H in H'. by simplify_eq.
Qed.

(** The name is refused: the [ValueError] leaves [lock] as it is, before any
    step. *)
Lemma lock_refused {A} tid self resource timeout (body : M A) s e :
  locking_thread_id s !! self ≠ Some tid →
  name_error (get_semaphore_name self) = Some e →
  WithLockMixin.lock tid self resource timeout body s = (Raise e, s, []).
Proof.
  intros Hh He.
  unfold WithLockMixin.lock, mbind, M_bind, bind, get_locking_thread_id.
  rewrite decide_False by done.
  unfold WithLockMixin._get_semaphore.
  by rewrite (Semaphore_O_CREAT_refused _ _ _ _ He).
Qed.

(** Acquisition times out. *)
Lemma lock_busy {A} tid self resource timeout (body : M A) s sem s1 t1 :
  locking_thread_id s !! self ≠ Some tid →
  WithLockMixin._get_semaphore self s = (Return sem, s1, t1) →
  value s1 sem = 0%N →
  WithLockMixin.lock tid self resource timeout body s =
    (Raise (BusyError (busy_message self (locking_thread_id s !! self))), s1,
     t1 ++ [(EvBusy sem (default WithLockMixin.LOCK_DEFAULT_TIMEOUT timeout), s1)]).
Proof.
  intros Hh Hs Hv.
  destruct (_get_semaphore_frame _ _ _ _ _ Hs) as (_ & Hl & _).
  unfold WithLockMixin.lock, mbind, M_bind, bind, get_locking_thread_id.
  rewrite decide_False by done. rewrite Hs.
  unfold try_except_BusyError, acquire, raise.
  rewrite decide_True by done. by rewrite Hl.
Qed.

(** Acquisition succeeds and the target resource is gone. *)
Lemma lock_stale {A} tid self resource timeout (body : M A) s sem s1 t1 :
  locking_thread_id s !! self ≠ Some tid →
  WithLockMixin._get_semaphore self s = (Return sem, s1, t1) →
  value s1 sem ≠ 0%N →
  state s resource = [] →
  WithLockMixin.lock tid self resource timeout body s =
    (Raise (TypeError (stale_message resource)),
     exited self sem (set_deleted resource (entered tid self sem s1)),
     t1 ++ entry_trace tid self sem s1
        ++ [(EvMarkDeleted resource, set_deleted resource (entered tid self sem s1))]
        ++ exit_trace self sem (set_deleted resource (entered tid self sem s1))).
Proof.
  intros Hh Hs Hv Hg.
  destruct (_get_semaphore_frame _ _ _ _ _ Hs) as (_ & _ & Hgr & _).
  unfold WithLockMixin.lock, mbind, M_bind, bind, get_locking_thread_id.
  rewrite decide_False by done. rewrite Hs.
  unfold try_except_BusyError, try_finally, acquire, assign_locking_thread_id,
    len_state, _mark_as_deleted, raise, release, close, mret, M_ret, ret.
  rewrite decide_False by done. simpl.
  rewrite (state_entered tid self resource sem s1), (state_graphs s1 s resource Hgr).
  rewrite Hg. simpl. reflexivity.
Qed.

(** Acquisition succeeds, the target resource exists and the body runs. *)
Lemma lock_body {A} tid self resource timeout (body : M A) s sem s1 t1 r3 s3 t3 :
  locking_thread_id s !! self ≠ Some tid →
  WithLockMixin._get_semaphore self s = (Return sem, s1, t1) →
  value s1 sem ≠ 0%N →
  state s resource ≠ [] →
  body (entered tid self sem s1) = (r3, s3, t3) →
  WithLockMixin.lock tid self resource timeout body s =
    (reraised self r3, exited self sem s3,
     t1 ++ entry_trace tid self sem s1 ++ t3 ++ exit_trace self sem s3).
Proof.
  intros Hh Hs Hv Hg Hb.
  destruct (_get_semaphore_frame _ _ _ _ _ Hs) as (_ & _ & Hgr & _).
  unfold WithLockMixin.lock, mbind, M_bind, bind, get_locking_thread_id.
  rewrite decide_False by done. rewrite Hs.
  unfold try_except_BusyError, try_finally, acquire, assign_locking_thread_id,
    len_state, _mark_as_deleted, raise, release, close, mret, M_ret, ret.
  rewrite decide_False by done. simpl.
  rewrite (state_entered tid self resource sem s1), (state_graphs s1 s resource Hgr).
  destruct (state s resource) as [|x l] eqn:E; [done|]. simpl.
  fold (entered tid self sem s1). rewrite Hb.
  destruct r3 as [a|[]]; simpl; try reflexivity.
  by rewrite lookup_delete_eq, app_nil_r.
Qed.

(** Further projections of the path lemmas. *)

Lemma events_app (t1 t2 : Trace) : events (t1 ++ t2) = events t1 ++ events t2.
Proof. unfold events. apply fmap_app. Qed.

Lemma events_entry_trace tid self sem s1 :
  events (entry_trace tid self sem s1) = [EvAcquire sem; EvHolder self (Some tid)].
Proof. reflexivity. Qed.

Lemma events_exit_trace self sem s3 :
  events (exit_trace self sem s3) = [EvHolder self None; EvRelease sem; EvClose sem].
Proof. reflexivity. Qed.

Lemma holder_exited self sem s3 :
  locking_thread_id (exited self sem s3) !! self = None.
Proof. unfold exited; simpl. apply lookup_delete_eq. Qed.

Lemma value_exited self sem s3 :
  value (exited self sem s3) sem = N.succ (value s3 sem).
Proof. unfold exited. by rewrite value_set_sem_value. Qed.

Lemma holder_entered tid self sem s1 :
  locking_thread_id (entered tid self sem s1) !! self = Some tid.
Proof. unfold entered. apply lookup_set_locking_thread_id. Qed.

Lemma value_entered tid self sem s1 :
  value (entered tid self sem s1) sem = N.pred (value s1 sem).
Proof. unfold entered. by rewrite value_set_locking_thread_id, value_set_sem_value. Qed.

(** Scopes nested inside a scope on the same resource never show. *)
Lemma lock_lock_nested {A} tid self scopes resource timeout (body : M A) s :
  WithLockMixin.lock tid self resource timeout (lock_nested tid self scopes body) s
  = WithLockMixin.lock tid self resource timeout body s.
Proof.
  destruct (decide (locking_thread_id s !! self = Some tid)) as [Hh|Hh].
  { rewrite !lock_reentrant by done. by apply lock_nested_reentrant. }
  destruct (name_error (get_semaphore_name self)) as [e|] eqn:Hok.
  { by rewrite !(lock_refused _ _ _ _ _ _ _ Hh Hok). }
  destruct (_get_semaphore_returns self s Hok) as (sem & s1 & t1 & Hs & _).
  destruct (decide (value s1 sem = 0%N)) as [Hv|Hv].
  { by rewrite !(lock_busy _ _ _ _ _ _ _ _ _ Hh Hs Hv). }
  destruct (decide (state s resource = [])) as [Hg|Hg].
  { by rewrite !(lock_stale _ _ _ _ _ _ _ _ _ Hh Hs Hv Hg). }
  destruct (body (entered tid self sem s1)) as [[r3 s3] t3] eqn:Hb.
  rewrite (lock_body _ _ _ _ _ _ _ _ _ r3 s3 t3 Hh Hs Hv Hg Hb).
  apply (lock_body _ _ _ _ _ _ _ _ _ r3 s3 t3 Hh Hs Hv Hg).
  rewrite lock_nested_reentrant; [done|]. apply holder_entered.
Qed.

(** ** The claims about [WithLockMixin.lock] *)

(** C2.  A context that already holds the WithLockMixin.lock of a resource (the recorded
    holder is its own identity) enters any number of further scopes on that
    resource as if they were not there: the run is the run of the body, with
    the same outcome, final state and trace, so no scope opens, acquires,
    releases or closes a semaphore or touches its counter.  Around a body
    wrapped in such scopes, an outermost scope that went through the
    semaphore behaves as around the bare body: the only release is the one
    of its own exit, after the body. *)
Theorem lock_reentrant_without_semaphore {A} tid self scopes (body : M A) s :
  locking_thread_id s !! self = Some tid →
  lock_nested tid self scopes body s = body s
  ∧ (∀ resource timeout s0,
       WithLockMixin.lock tid self resource timeout (lock_nested tid self scopes body) s0
       = WithLockMixin.lock tid self resource timeout body s0)
  ∧ (∀ resource timeout s0 sem s1 t1,
       locking_thread_id s0 !! self ≠ Some tid →
       WithLockMixin._get_semaphore self s0 = (Return sem, s1, t1) →
       value s1 sem ≠ 0%N →
       state s0 resource ≠ [] →
       events (trace_of (WithLockMixin.lock tid self resource timeout
                           (lock_nested tid self scopes body) s0))
       = events t1 ++ [EvAcquire sem; EvHolder self (Some tid)]
           ++ events (trace_of (body (entered tid self sem s1)))
           ++ [EvHolder self None; EvRelease sem; EvClose sem]).
Proof.
  intros Hh. split; [by apply lock_nested_reentrant|].
  split; [intros; apply lock_lock_nested|].
  intros resource timeout s0 sem s1 t1 Hh0 Hs Hv Hg.
  rewrite lock_lock_nested.
  destruct (body (entered tid self sem s1)) as [[r3 s3] t3] eqn:Hb.
  rewrite (lock_body _ _ _ _ _ _ _ _ _ r3 s3 t3 Hh0 Hs Hv Hg Hb).
  unfold trace_of; cbn [snd].
  by rewrite !events_app, events_entry_trace, events_exit_trace.
Qed.

(** C9.  On the reentrant path the existence of the target resource is not
    checked: with an empty [resource.state] the run is still the run of the
    body (no [TypeError] of [WithLockMixin.lock]'s own, no "deleted" mark).  The check
    belongs to the path through the semaphore, after the acquisition: there
    an empty state marks the resource and raises, and when the acquisition
    times out nothing is checked or marked. *)
Theorem lock_reentrant_skips_existence_check {A} tid self resource timeout
    (body : M A) s :
  state s resource = [] →
  (locking_thread_id s !! self = Some tid →
     WithLockMixin.lock tid self resource timeout body s = body s)
  ∧ (∀ sem s1 t1,
       locking_thread_id s !! self ≠ Some tid →
       WithLockMixin._get_semaphore self s = (Return sem, s1, t1) →
       (value s1 sem ≠ 0%N →
          outcome_of (WithLockMixin.lock tid self resource timeout body s)
            = Raise (TypeError ("The resource <" +:+ resource +:+ "> no longer exists."))
          ∧ events (trace_of (WithLockMixin.lock tid self resource timeout body s))
            = events t1 ++ [EvAcquire sem; EvHolder self (Some tid);
                            EvMarkDeleted resource;
                            EvHolder self None; EvRelease sem; EvClose sem]
          ∧ resource ∈ deleted (state_of (WithLockMixin.lock tid self resource timeout body s)))
       ∧ (value s1 sem = 0%N →
          state_of (WithLockMixin.lock tid self resource timeout body s) = s1
          ∧ deleted s1 = deleted s
          ∧ events (trace_of (WithLockMixin.lock tid self resource timeout body s))
            = events t1 ++ [EvBusy sem (default WithLockMixin.LOCK_DEFAULT_TIMEOUT timeout)])).
Proof.
  intros Hg. split; [by apply lock_reentrant|].
  intros sem s1 t1 Hh Hs. split; intros Hv.
  - rewrite (lock_stale _ _ _ _ _ _ _ _ _ Hh Hs Hv Hg).
    unfold outcome_of, trace_of, state_of; cbn [fst snd].
    split; [done|].
    split; [by rewrite !events_app, events_entry_trace, events_exit_trace|].
    unfold exited, set_deleted; simpl. set_solver.
  - rewrite (lock_busy _ _ _ _ _ _ _ _ _ Hh Hs Hv).
    unfold trace_of, state_of; cbn [fst snd].
    destruct (_get_semaphore_frame _ _ _ _ _ Hs) as (_ & _ & _ & Hd).
    by rewrite events_app.
Qed.

Lemma succ_pred_value (v : N) : v ≠ 0%N → N.succ (N.pred v) = v.
Proof. intros. by apply N.succ_pred. Qed.

(** C3.  A call of [WithLockMixin.lock] that takes the path through the semaphore and
    acquires it ends, on every exit path, with the steps of the [finally]
    clause: the holder record is cleared, the semaphore is released and the
    handle is closed, in that order, and nothing follows.  The exit paths are
    the stale-resource [TypeError] (empty [resource.state]: the counter is
    back at its value before the acquisition) and whatever the body did,
    return or raise (the counter is one above what the body left, hence back
    at its value before the acquisition when the body left it alone). *)
Theorem lock_always_releases {A} tid self resource timeout (body : M A) s sem s1 t1 :
  locking_thread_id s !! self ≠ Some tid →
  WithLockMixin._get_semaphore self s = (Return sem, s1, t1) →
  value s1 sem ≠ 0%N →
  let r := WithLockMixin.lock tid self resource timeout body s in
  let b := body (entered tid self sem s1) in
  (∃ steps, events (trace_of r)
            = steps ++ [EvHolder self None; EvRelease sem; EvClose sem])
  ∧ locking_thread_id (state_of r) !! self = None
  ∧ (state s resource = [] →
       outcome_of r
         = Raise (TypeError ("The resource <" +:+ resource +:+ "> no longer exists."))
       ∧ value (state_of r) sem = value s1 sem)
  ∧ (state s resource ≠ [] →
       outcome_of r = reraised self (outcome_of b)
       ∧ value (state_of r) sem = N.succ (value (state_of b) sem)
       ∧ (value (state_of b) sem = value (entered tid self sem s1) sem →
          value (state_of r) sem = value s1 sem)).
Proof.
  intros Hh Hs Hv r b.
  destruct (decide (state s resource = [])) as [Hg|Hg].
  - subst r. rewrite (lock_stale _ _ _ _ _ _ _ _ _ Hh Hs Hv Hg).
    unfold outcome_of, trace_of, state_of; cbn [fst snd].
    split; [|split; [apply holder_exited|split; [|done]]].
    + eexists. rewrite !events_app, events_exit_trace, !app_assoc. reflexivity.
    + intros _. split; [done|].
      rewrite value_exited.
      change (value (set_deleted resource (entered tid self sem s1)) sem)
        with (value (entered tid self sem s1) sem).
      by rewrite value_entered, succ_pred_value.
  - subst r. destruct b as [[r3 s3] t3] eqn:Hb.
    rewrite (lock_body _ _ _ _ _ _ _ _ _ r3 s3 t3 Hh Hs Hv Hg Hb).
    unfold outcome_of, trace_of, state_of; cbn [fst snd].
    split; [|split; [apply holder_exited|split; [done|]]].
    + eexists. rewrite !events_app, events_exit_trace, !app_assoc. reflexivity.
    + intros _. split; [done|]. split; [apply value_exited|].
      intros Hkeep. by rewrite value_exited, Hkeep, value_entered, succ_pred_value.
Qed.

(** C4.  A call of [WithLockMixin.lock] that takes the path through the semaphore and
    acquires it, for a target resource whose state is empty: the resource is
    marked as deleted, a [TypeError] whose message carries the identifier of
    the target resource is raised, and the WithLockMixin.lock is released all the same
    (holder cleared, semaphore back at its counter, handle closed).  The body
    is not run: the run is the same for every body. *)
Theorem lock_stale_resource {A} tid self resource timeout (body : M A) s sem s1 t1 :
  locking_thread_id s !! self ≠ Some tid →
  WithLockMixin._get_semaphore self s = (Return sem, s1, t1) →
  value s1 sem ≠ 0%N →
  state s resource = [] →
  let r := WithLockMixin.lock tid self resource timeout body s in
  outcome_of r
    = Raise (TypeError ("The resource <" +:+ resource +:+ "> no longer exists."))
  ∧ events (trace_of r)
    = events t1 ++ [EvAcquire sem; EvHolder self (Some tid);
                    EvMarkDeleted resource;
                    EvHolder self None; EvRelease sem; EvClose sem]
  ∧ resource ∈ deleted (state_of r)
  ∧ locking_thread_id (state_of r) !! self = None
  ∧ value (state_of r) sem = value s1 sem
  ∧ (∀ body' : M A, WithLockMixin.lock tid self resource timeout body' s = r).
Proof.
  intros Hh Hs Hv Hg r. subst r.
  rewrite (lock_stale _ _ _ _ _ _ _ _ _ Hh Hs Hv Hg).
  unfold outcome_of, trace_of, state_of; cbn [fst snd].
  split; [done|].
  split; [by rewrite !events_app, events_entry_trace, events_exit_trace|].
  split; [unfold exited, set_deleted; simpl; set_solver|].
  split; [apply holder_exited|].
  split.
  - rewrite value_exited.
    change (value (set_deleted resource (entered tid self sem s1)) sem)
      with (value (entered tid self sem s1) sem).
    by rewrite value_entered, succ_pred_value.
  - intros body'. apply (lock_stale _ _ _ _ _ _ _ _ _ Hh Hs Hv Hg).
Qed.

(** C6.  A call of [WithLockMixin.lock] whose acquisition times out raises a [BusyError]
    built by [WithLockMixin.lock] itself.  Its message carries the identifier of the
    resource whose WithLockMixin.lock it is ([self.uri]) and the recorded holder: the
    thread identifier when one is recorded (thread identifiers are not 0),
    the text [Unknown] when none is.  Nothing else happens: no holder is
    recorded, nothing is released, and the body is not run (the run is the
    same for every body). *)
Theorem lock_busy_error {A} tid self resource timeout (body : M A) s sem s1 t1 :
  locking_thread_id s !! self ≠ Some tid →
  WithLockMixin._get_semaphore self s = (Return sem, s1, t1) →
  value s1 sem = 0%N →
  let r := WithLockMixin.lock tid self resource timeout body s in
  (∀ t, locking_thread_id s !! self = Some t → t ≠ 0%Z →
     outcome_of r
       = Raise (BusyError ("The resource <" +:+ self +:+ "> is locked by thread "
                             +:+ format_ident t +:+ ".")))
  ∧ (locking_thread_id s !! self = None →
     outcome_of r
       = Raise (BusyError ("The resource <" +:+ self
                             +:+ "> is locked by thread Unknown.")))
  ∧ events (trace_of r)
    = events t1 ++ [EvBusy sem (default WithLockMixin.LOCK_DEFAULT_TIMEOUT timeout)]
  ∧ state_of r = s1
  ∧ (∀ body' : M A, WithLockMixin.lock tid self resource timeout body' s = r).
Proof.
  intros Hh Hs Hv r. subst r.
  rewrite (lock_busy _ _ _ _ _ _ _ _ _ Hh Hs Hv).
  unfold outcome_of, trace_of, state_of; cbn [fst snd].
  split; [|split; [|split; [by rewrite events_app|split; [done|]]]].
  - intros t -> Ht. unfold busy_message, thread_id_text.
    by rewrite decide_False.
  - by intros ->.
  - intros body'. apply (lock_busy _ _ _ _ _ _ _ _ _ Hh Hs Hv).
Qed.

(** ** [reset_lock] and [WithLockMixin.ack_delete] *)

Lemma Semaphore_O_CREAT_absent nm s :
  name_error nm = None →
  sem_names s !! nm = None →
  Semaphore_O_CREAT nm 1 s
  = (Return (mkSemaphore nm (sem_next s)), created nm s,
     [(EvOpen (mkSemaphore nm (sem_next s)) true, created nm s)]).
Proof. intros Hok H. unfold Semaphore_O_CREAT. by rewrite Hok, H. Qed.

Lemma Semaphore_O_CREAT_present nm s i :
  name_error nm = None →
  sem_names s !! nm = Some i →
  Semaphore_O_CREAT nm 1 s
  = (Return (mkSemaphore nm i), s, [(EvOpen (mkSemaphore nm i) false, s)]).
Proof. intros Hok H. unfold Semaphore_O_CREAT. by rewrite Hok, H. Qed.

Lemma value_created nm s : value (created nm s) (mkSemaphore nm (sem_next s)) = 1%N.
Proof. unfold value, created; simpl. by rewrite lookup_insert_eq. Qed.

Lemma sem_names_created nm s : sem_names (created nm s) !! nm = Some (sem_next s).
Proof. unfold created; simpl. by rewrite lookup_insert_eq. Qed.

Lemma reset_lock_absent resource_uri s :
  name_error (get_semaphore_name resource_uri) = None →
  sem_names s !! get_semaphore_name resource_uri = None →
  reset_lock resource_uri s
  = (Return (), created (get_semaphore_name resource_uri) s,
     [(EvOpen (mkSemaphore (get_semaphore_name resource_uri) (sem_next s)) true,
       created (get_semaphore_name resource_uri) s)]).
Proof.
  intros Hok H. unfold reset_lock, mbind, M_bind, bind.
  rewrite (Semaphore_O_CREAT_absent _ _ Hok H).
  unfold get_value. rewrite value_created. by rewrite decide_False.
Qed.

Lemma reset_lock_zero resource_uri s i :
  name_error (get_semaphore_name resource_uri) = None →
  sem_names s !! get_semaphore_name resource_uri = Some i →
  value s (mkSemaphore (get_semaphore_name resource_uri) i) = 0%N →
  reset_lock resource_uri s
  = (Return (), set_sem_value i 1 s,
     [(EvOpen (mkSemaphore (get_semaphore_name resource_uri) i) false, s);
      (EvRelease (mkSemaphore (get_semaphore_name resource_uri) i), set_sem_value i 1 s);
      (EvClose (mkSemaphore (get_semaphore_name resource_uri) i), set_sem_value i 1 s)]).
Proof.
  intros Hok H Hv. unfold reset_lock, mbind, M_bind, bind.
  rewrite (Semaphore_O_CREAT_present _ _ _ Hok H).
  unfold get_value. rewrite Hv, decide_True by done.
  unfold release, close. by rewrite Hv.
Qed.

Lemma reset_lock_positive resource_uri s i :
  name_error (get_semaphore_name resource_uri) = None →
  sem_names s !! get_semaphore_name resource_uri = Some i →
  value s (mkSemaphore (get_semaphore_name resource_uri) i) ≠ 0%N →
  reset_lock resource_uri s
  = (Return (), s,
     [(EvOpen (mkSemaphore (get_semaphore_name resource_uri) i) false, s)]).
Proof.
  intros Hok H Hv. unfold reset_lock, mbind, M_bind, bind.
  rewrite (Semaphore_O_CREAT_present _ _ _ Hok H).
  unfold get_value. by rewrite decide_False.
Qed.

Lemma reset_lock_refused resource_uri s e :
  name_error (get_semaphore_name resource_uri) = Some e →
  reset_lock resource_uri s = (Raise e, s, []).
Proof.
  intros He. unfold reset_lock, mbind, M_bind, bind.
  by rewrite (Semaphore_O_CREAT_refused _ _ _ _ He).
Qed.

(** After [reset_lock] the name is bound to a semaphore that is not at 0. *)
Lemma reset_lock_bound resource_uri s :
  name_error (get_semaphore_name resource_uri) = None →
  ∃ i, sem_names (state_of (reset_lock resource_uri s))
         !! get_semaphore_name resource_uri = Some i
     ∧ value (state_of (reset_lock resource_uri s))
             (mkSemaphore (get_semaphore_name resource_uri) i) ≠ 0%N
     ∧ locking_thread_id (state_of (reset_lock resource_uri s)) = locking_thread_id s
     ∧ graphs (state_of (reset_lock resource_uri s)) = graphs s.
Proof.
  intros Hok.
  destruct (sem_names s !! get_semaphore_name resource_uri) as [i|] eqn:H.
  - destruct (decide (value s (mkSemaphore (get_semaphore_name resource_uri) i) = 0%N))
      as [Hv|Hv].
    + rewrite (reset_lock_zero _ _ _ Hok H Hv). exists i.
      unfold state_of; cbn [fst snd]. split; [done|].
      split; [|done].
      rewrite (value_set_sem_value (mkSemaphore _ i)). done.
    + rewrite (reset_lock_positive _ _ _ Hok H Hv). by exists i.
  - rewrite (reset_lock_absent _ _ Hok H). exists (sem_next s).
    unfold state_of; cbn [fst snd].
    rewrite sem_names_created, value_created. done.
Qed.

(** A call of [lock] that finds the semaphore free acquires it. *)
Lemma lock_acquires {A} tid self resource timeout (body : M A) s sem s1 t1 :
  locking_thread_id s !! self ≠ Some tid →
  WithLockMixin._get_semaphore self s = (Return sem, s1, t1) →
  value s1 sem ≠ 0%N →
  EvAcquire sem ∈ events (trace_of (WithLockMixin.lock tid self resource timeout body s)).
Proof.
  intros Hh Hs Hv.
  destruct (decide (state s resource = [])) as [Hg|Hg].
  - rewrite (lock_stale _ _ _ _ _ _ _ _ _ Hh Hs Hv Hg).
    unfold trace_of; cbn [snd]. rewrite !events_app, events_entry_trace.
    set_solver.
  - destruct (body (entered tid self sem s1)) as [[r3 s3] t3] eqn:Hb.
    rewrite (lock_body _ _ _ _ _ _ _ _ _ r3 s3 t3 Hh Hs Hv Hg Hb).
    unfold trace_of; cbn [snd]. rewrite !events_app, events_entry_trace.
    set_solver.
Qed.

Lemma get_replace old new s i :
  String.get i (replace old new s)
  = (λ c, if decide (c = old) then new else c) <$> String.get i s.
Proof.
  revert i. induction s as [|c rest IH]; intros [|i]; simpl; auto.
Qed.

Lemma length_replace old new s :
  String.length (replace old new s) = String.length s.
Proof. induction s as [|c rest IH]; simpl; congruence. Qed.

Lemma char_in_replace old new s :
  old ≠ new → char_in old (replace old new s) = false.
Proof.
  intros Hne. induction s as [|c rest IH]; simpl; [done|].
  repeat case_decide; congruence.
Qed.

Lemma replace_inj old new s1 s2 :
  char_in new s1 = false → char_in new s2 = false →
  replace old new s1 = replace old new s2 → s1 = s2.
Proof.
  revert s2. induction s1 as [|c1 r1 IH]; intros [|c2 r2]; simpl; try done.
  do 2 case_decide; try done. intros H1 H2 [= Hc Hr].
  f_equal; [|by apply IH].
  repeat case_decide; congruence.
Qed.

(** The identifiers whose semaphore name the system accepts. *)
Lemma strip_slashes_no_slash s : char_in "/" s = false → strip_slashes s = s.
Proof. destruct s as [|c rest]; simpl; [done|]. by case_decide. Qed.

Lemma name_error_get_semaphore_name u :
  name_error (get_semaphore_name u) = None
  ↔ u ≠ EmptyString ∧ String.length u ≤ SEM_NAME_MAX.
Proof.
  assert (Hno : char_in "/" (replace "/" "-" u) = false) by (by apply char_in_replace).
  unfold name_error.
  change (strip_slashes (get_semaphore_name u))
    with (strip_slashes (replace "/" "-" u)).
  rewrite (strip_slashes_no_slash _ Hno), Hno, length_replace.
  assert (Hempty : replace "/" "-" u = EmptyString ↔ u = EmptyString).
  { by destruct u. }
  destruct (decide (replace "/" "-" u = EmptyString)) as [He|He].
  { split; [done|]. intros [Hu _]. by apply Hempty in He. }
  destruct (decide (SEM_NAME_MAX < String.length u)) as [Hl|Hl].
  { split; [done|]. intros [_ ?]. lia. }
  split; [|done]. intros _. split; [|lia]. intros Hu. by apply He, Hempty.
Qed.

(** C5, as far as it holds.  For an identifier whose semaphore name the system
    accepts, that is, one that is not empty and has at most 251 characters:
    [reset_lock] returns, and leaves the name of the resource bound to a
    semaphore whose counter is at least 1.  A name that was not bound gets a
    new semaphore with counter 1; a semaphore found at 0 is released once and
    closed, which puts it at 1; a semaphore found above 0 is left as it is.
    A second [reset_lock] changes nothing, and an acquisition right after
    [reset_lock] succeeds at once, be it the bare [acquire] or the one of
    [lock] on that resource.  For any other identifier [reset_lock] raises
    the [ValueError] of [posix_ipc] and changes nothing. *)
Theorem reset_lock_frees (resource_uri : string) (s : State) :
  let nm := get_semaphore_name resource_uri in
  let r := reset_lock resource_uri s in
  (name_error nm = None
   ↔ resource_uri ≠ EmptyString ∧ String.length resource_uri ≤ SEM_NAME_MAX)
  ∧ (∀ e, name_error nm = Some e → r = (Raise e, s, []))
  ∧ (name_error nm = None →
     outcome_of r = Return ()
     ∧ (∃ i, sem_names (state_of r) !! nm = Some i
           ∧ (1 ≤ value (state_of r) (mkSemaphore nm i))%N)
     ∧ (sem_names s !! nm = None →
          sem_names (state_of r) !! nm = Some (sem_next s)
          ∧ value (state_of r) (mkSemaphore nm (sem_next s)) = 1%N
          ∧ events (trace_of r) = [EvOpen (mkSemaphore nm (sem_next s)) true])
     ∧ (∀ i, sem_names s !! nm = Some i →
          sem_names (state_of r) !! nm = Some i
          ∧ (value s (mkSemaphore nm i) = 0%N →
               value (state_of r) (mkSemaphore nm i) = 1%N
               ∧ events (trace_of r)
                 = [EvOpen (mkSemaphore nm i) false; EvRelease (mkSemaphore nm i);
                    EvClose (mkSemaphore nm i)])
          ∧ (value s (mkSemaphore nm i) ≠ 0%N →
               state_of r = s
               ∧ events (trace_of r) = [EvOpen (mkSemaphore nm i) false]))
     ∧ state_of (reset_lock resource_uri (state_of r)) = state_of r
     ∧ (∀ timeout, ∃ sem s',
          (WithLockMixin._get_semaphore resource_uri ≫= λ sem, acquire sem timeout)
            (state_of r)
          = (Return (), s', [(EvOpen sem false, state_of r); (EvAcquire sem, s')]))
     ∧ (∀ A tid resource timeout (body : M A),
          locking_thread_id s !! resource_uri ≠ Some tid →
          ∃ sem, EvAcquire sem
                   ∈ events (trace_of (WithLockMixin.lock tid resource_uri resource
                                         timeout body (state_of r))))).
Proof.
  intros nm r.
  split; [apply name_error_get_semaphore_name|].
  split; [intros e He; by apply reset_lock_refused|].
  intros Hok.
  destruct (reset_lock_bound resource_uri s Hok) as (j & Hj & Hvj & Hhj & _).
  fold nm in Hj, Hvj. fold r in Hj, Hvj, Hhj.
  split.
  { subst r nm.
    destruct (sem_names s !! get_semaphore_name resource_uri) as [i|] eqn:H.
    - destruct (decide (value s (mkSemaphore (get_semaphore_name resource_uri) i) = 0%N))
        as [Hv|Hv].
      + by rewrite (reset_lock_zero _ _ _ Hok H Hv).
      + by rewrite (reset_lock_positive _ _ _ Hok H Hv).
    - by rewrite (reset_lock_absent _ _ Hok H). }
  split. { exists j. split; [done|]. lia. }
  split.
  { intros H. subst r. rewrite (reset_lock_absent _ _ Hok H).
    unfold state_of, trace_of; cbn [fst snd]. fold nm.
    by rewrite sem_names_created, value_created. }
  split.
  { intros i H. split; [|split]; intros.
    - subst r.
      destruct (decide (value s (mkSemaphore nm i) = 0%N)) as [Hv|Hv].
      + by rewrite (reset_lock_zero _ _ _ Hok H Hv).
      + by rewrite (reset_lock_positive _ _ _ Hok H Hv).
    - subst r. rewrite (reset_lock_zero _ _ _ Hok H) by done.
      unfold state_of, trace_of; cbn [fst snd]. split; [|done].
      by rewrite (value_set_sem_value (mkSemaphore nm i)).
    - subst r. by rewrite (reset_lock_positive _ _ _ Hok H). }
  split. { by rewrite (reset_lock_positive _ _ _ Hok Hj Hvj). }
  split.
  { intros timeout. exists (mkSemaphore nm j).
    eexists. unfold mbind, M_bind, bind, WithLockMixin._get_semaphore.
    fold nm. rewrite (Semaphore_O_CREAT_present _ _ _ Hok Hj).
    unfold acquire. rewrite decide_False by done. reflexivity. }
  intros A tid resource timeout body Hh. exists (mkSemaphore nm j).
  apply (lock_acquires _ _ _ _ _ _ _ (state_of r) [(EvOpen (mkSemaphore nm j) false, state_of r)]).
  - by rewrite Hhj.
  - unfold WithLockMixin._get_semaphore. fold nm.
    by rewrite (Semaphore_O_CREAT_present _ _ _ Hok Hj).
  - done.
Qed.

Lemma unlink_bound sem s i :
  sem_names s !! name sem = Some i →
  unlink sem s
  = (Return (), set_semaphores (delete (name sem) (sem_names s)) (sem_values s) (sem_next s) s,
     [(EvUnlink sem,
       set_semaphores (delete (name sem) (sem_names s)) (sem_values s) (sem_next s) s)]).
Proof. intros H. unfold unlink. by rewrite H. Qed.

(** What [ack_delete] leaves once the inherited [ack_delete] has returned,
    for a name that the system accepts. *)
Lemma ack_delete_run self (super_ack_delete : M unit) s s0 t0 :
  name_error (get_semaphore_name self) = None →
  super_ack_delete s = (Return (), s0, t0) →
  ∃ sem s1 t1 s2,
    WithLockMixin._get_semaphore self s0 = (Return sem, s1, t1)
    ∧ (∃ c, events t1 = [EvOpen sem c])
    ∧ name sem = get_semaphore_name self
    ∧ sem_names s2 !! get_semaphore_name self = None
    ∧ WithLockMixin.ack_delete self super_ack_delete s
      = (Return (), s2, t0 ++ t1 ++ [(EvUnlink sem, s2)]).
Proof.
  intros Hok Hsup. unfold WithLockMixin.ack_delete, mbind, M_bind, bind. rewrite Hsup.
  unfold WithLockMixin._get_semaphore.
  destruct (sem_names s0 !! get_semaphore_name self) as [i|] eqn:H.
  - rewrite (Semaphore_O_CREAT_present _ _ _ Hok H).
    rewrite (unlink_bound (mkSemaphore _ i) s0 i) by done.
    eexists _, _, _, _. split; [done|]. split; [by eexists|]. split; [done|].
    split; [|done]. simpl. apply lookup_delete_eq.
  - rewrite (Semaphore_O_CREAT_absent _ _ Hok H).
    rewrite (unlink_bound (mkSemaphore _ (sem_next s0)) _ (sem_next s0))
      by apply sem_names_created.
    eexists _, _, _, _. split; [done|]. split; [by eexists|]. split; [done|].
    split; [|done]. simpl. apply lookup_delete_eq.
Qed.

(** [ack_delete] returns only when the inherited [ack_delete] returned and
    the name is one that the system accepts. *)
Lemma ack_delete_returned self (super_ack_delete : M unit) s :
  outcome_of (WithLockMixin.ack_delete self super_ack_delete s) = Return () →
  name_error (get_semaphore_name self) = None
  ∧ ∃ s0 t0, super_ack_delete s = (Return (), s0, t0).
Proof.
  unfold WithLockMixin.ack_delete, mbind, M_bind, bind.
  destruct (super_ack_delete s) as [[[[]|e] s0] t0]; [|done].
  destruct (name_error (get_semaphore_name self)) as [e|] eqn:Hok; [|by eauto].
  unfold WithLockMixin._get_semaphore.
  by rewrite (Semaphore_O_CREAT_refused _ _ _ _ Hok).
Qed.

(** C7, as far as it holds.  Once [WithLockMixin.ack_delete] has completed,
    the semaphore name of the resource is unbound: the last step is the
    unlink.  Whatever the semaphore was before (absent, free, or at 0),
    opening the name again, through [_get_semaphore] or through [reset_lock],
    creates a new semaphore with counter 1.  [Base.ack_delete] of [base.py]
    has no unlink of its own: it leaves the semaphore names as the inherited
    [ack_delete] and the root's [edit] leave them. *)
Theorem ack_delete_unlinks self (super_ack_delete : M unit) s :
  let nm := get_semaphore_name self in
  let r := WithLockMixin.ack_delete self super_ack_delete s in
  let sem' := mkSemaphore nm (sem_next (state_of r)) in
  (outcome_of r = Return () →
     sem_names (state_of r) !! nm = None
     ∧ (∃ steps sem c, name sem = nm
           ∧ events (trace_of r) = steps ++ [EvOpen sem c; EvUnlink sem])
     ∧ (∃ s', WithLockMixin._get_semaphore self (state_of r)
              = (Return sem', s', [(EvOpen sem' true, s')])
           ∧ sem_names s' !! nm = Some (sid sem')
           ∧ value s' sem' = 1%N)
     ∧ (∃ s', reset_lock self (state_of r) = (Return (), s', [(EvOpen sem' true, s')])
           ∧ sem_names s' !! nm = Some (sid sem')
           ∧ value s' sem' = 1%N))
  ∧ (∀ get_root KTBS_hasBase RDF_type RDF_MAIN_TYPE
       (root_edit : string → Editing unit → M unit),
       (∀ s0, sem_names (state_of (super_ack_delete s0)) = sem_names s0) →
       (∀ root editing s0, sem_names (state_of (root_edit root editing s0)) = sem_names s0) →
       sem_names (state_of (Base.ack_delete get_root KTBS_hasBase RDF_type RDF_MAIN_TYPE
                              self super_ack_delete root_edit s))
       = sem_names s).
Proof.
  intros nm r sem'. split.
  - intros Hret.
    destruct (ack_delete_returned _ _ _ Hret) as (Hok & s0 & t0 & Hsup).
    destruct (ack_delete_run self _ _ _ _ Hok Hsup)
      as (sem & s1 & t1 & s2 & Hs & [c Hc] & Hn & Hnone & Hr).
    subst sem' r nm. rewrite Hr. unfold outcome_of, state_of, trace_of; cbn [fst snd].
    split; [done|].
    split. { exists (events t0), sem, c. split; [done|]. by rewrite !events_app, Hc. }
    split.
    + eexists. unfold WithLockMixin._get_semaphore.
      rewrite (Semaphore_O_CREAT_absent _ _ Hok Hnone).
      split; [done|]. by rewrite sem_names_created, value_created.
    + eexists. rewrite (reset_lock_absent _ _ Hok Hnone).
      split; [done|]. by rewrite sem_names_created, value_created.
  - intros get_root KTBS_hasBase RDF_type RDF_MAIN_TYPE root_edit Hsup Hedit.
    unfold Base.ack_delete, mbind, M_bind, bind.
    specialize (Hsup s).
    destruct (super_ack_delete s) as [[[[]|e] s0] t0]; [|done].
    unfold state_of in Hsup; cbn [fst snd] in Hsup. rewrite <- Hsup.
    match goal with |- context [root_edit ?a ?b s0] => specialize (Hedit a b s0);
      destruct (root_edit a b s0) as [[? ?] ?] end.
    done.
Qed.

(** ** Semaphore names *)

(** C8.  The semaphore name of an identifier is ["/"] followed by the
    identifier in which every ["/"] has become ["-"] and every other
    character is kept, position by position; [get_lock] of [base.py] builds
    the same name.  On identifiers without ["-"] the mapping is injective. *)
Theorem get_semaphore_name_injective :
  (∀ u, String.get 0 (get_semaphore_name u) = Some "/"%char
        ∧ String.length (get_semaphore_name u) = S (String.length u)
        ∧ (∀ i, String.get (S i) (get_semaphore_name u)
                = (λ c, if decide (c = "/"%char) then "-"%char else c)
                    <$> String.get i u)
        ∧ char_in "/" (replace "/" "-" u) = false
        ∧ (∀ A (body : M A) s,
             get_lock u None body s
             = (Semaphore_O_CREAT (get_semaphore_name u) 1
                  ≫= λ sem, acquire sem 30;; try_finally body (release sem)) s))
  ∧ (∀ u1 u2, char_in "-" u1 = false → char_in "-" u2 = false →
       get_semaphore_name u1 = get_semaphore_name u2 → u1 = u2).
Proof.
  split.
  - intros u.
    change (get_semaphore_name u) with (String "/" (replace "/" "-" u)).
    split; [done|].
    split; [cbn [String.length]; f_equal; apply length_replace|].
    split; [intros i; apply get_replace|].
    split; [by apply char_in_replace|done].
  - intros u1 u2 H1 H2 [= H]. by apply (replace_inj "/" "-").
Qed.

(** ** Deleting *)

Lemma acquired_app t1 t2 : acquired (t1 ++ t2) = acquired t1 ++ acquired t2.
Proof. unfold acquired. by rewrite events_app, omap_app. Qed.

Lemma acquired_cons e st t :
  acquired ((e, st) :: t)
  = match e with EvAcquire sem => [name sem] | _ => [] end ++ acquired t.
Proof. unfold acquired. by destruct e. Qed.

Lemma acquired_entry_trace tid self sem s1 :
  acquired (entry_trace tid self sem s1) = [name sem].
Proof. reflexivity. Qed.

Lemma acquired_exit_trace self sem s3 : acquired (exit_trace self sem s3) = [].
Proof. reflexivity. Qed.

Lemma _get_semaphore_trace self s sem s1 t1 :
  WithLockMixin._get_semaphore self s = (Return sem, s1, t1) →
  ∃ c, t1 = [(EvOpen sem c, s1)].
Proof.
  unfold WithLockMixin._get_semaphore, Semaphore_O_CREAT.
  destruct (name_error (get_semaphore_name self)); [done|].
  destruct (sem_names s !! get_semaphore_name self); intros [= <- <- <-]; eauto.
Qed.

(** A semaphore found at 0 was there before. *)
Lemma _get_semaphore_zero self s sem s1 t1 :
  WithLockMixin._get_semaphore self s = (Return sem, s1, t1) →
  value s1 sem = 0%N →
  s1 = s.
Proof.
  unfold WithLockMixin._get_semaphore, Semaphore_O_CREAT.
  destruct (name_error (get_semaphore_name self)); [done|].
  destruct (sem_names s !! get_semaphore_name self) eqn:H; intros [= <- <- <-]; [done|].
  fold (created (get_semaphore_name self) s). by rewrite value_created.
Qed.

Lemma sem_values_exited_entered tid self sem s1 :
  value s1 sem ≠ 0%N →
  sem_values (exited self sem (entered tid self sem s1)) = sem_values s1.
Proof.
  intros Hv. unfold exited. rewrite value_entered.
  rewrite succ_pred_value by done. unfold entered; simpl.
  rewrite insert_insert_eq. apply insert_id.
  unfold value in *. by destruct (sem_values s1 !! sid sem).
Qed.

Lemma get_lock_busy {A} base_name timeout (body : M A) s sem s1 t1 :
  Semaphore_O_CREAT (get_semaphore_name base_name) 1 s = (Return sem, s1, t1) →
  value s1 sem = 0%N →
  get_lock base_name timeout body s
  = (Raise (BusyError "Semaphore is busy"), s1,
     t1 ++ [(EvBusy sem (default (30 : Q) timeout), s1)]).
Proof.
  intros Hs Hv. unfold get_lock, mbind, M_bind, bind.
  change ("/" +:+ replace "/" "-" base_name) with (get_semaphore_name base_name).
  rewrite Hs. unfold acquire. by rewrite decide_True.
Qed.

Lemma get_lock_body {A} base_name timeout (body : M A) s sem s1 t1 r3 s3 t3 :
  Semaphore_O_CREAT (get_semaphore_name base_name) 1 s = (Return sem, s1, t1) →
  value s1 sem ≠ 0%N →
  body (set_sem_value (sid sem) (N.pred (value s1 sem)) s1) = (r3, s3, t3) →
  get_lock base_name timeout body s
  = (r3, set_sem_value (sid sem) (N.succ (value s3 sem)) s3,
     t1 ++ [(EvAcquire sem, set_sem_value (sid sem) (N.pred (value s1 sem)) s1)]
        ++ t3 ++ [(EvRelease sem, set_sem_value (sid sem) (N.succ (value s3 sem)) s3)]).
Proof.
  intros Hs Hv Hb. unfold get_lock, mbind, M_bind, bind.
  change ("/" +:+ replace "/" "-" base_name) with (get_semaphore_name base_name).
  rewrite Hs. unfold acquire, try_finally, release.
  rewrite decide_False by done. by rewrite Hb.
Qed.

(** C1, as far as it holds.  [WithLockMixin.delete], case by case.
    - The caller already holds the root's lock: [delete] is the scope of the
      resource's own lock alone.
    - The system refuses the root's semaphore name: [ValueError], before any
      step.
    - The root's semaphore is at 0: [BusyError], nothing is acquired and the
      inherited [delete] does not run.
    - The root's semaphore is acquired and the state of the resource is
      empty: the resource is marked as deleted, the stale-resource
      [TypeError] is raised and the root's lock is released; only the root's
      semaphore was acquired.
    - The root's semaphore is acquired and the resource exists: the root's
      semaphore is acquired first and released last, and the whole scope of
      the resource's own lock lies in between.  When the resource's own
      semaphore is free too, the semaphores acquired are the root's and then
      the resource's own, followed by what the inherited [delete] acquires.
      When the acquisition of the resource's own semaphore times out, a
      [BusyError] comes out, the root's holder record is cleared, the root's
      semaphore is released and closed, every counter is back where it was
      once the root's semaphore was opened, and the inherited [delete] has
      not run.
    [Base.delete] of [base.py] is another [delete]: the first semaphore it
    acquires is the base's own. *)
Theorem delete_locks_root_then_self (get_root : string → string) tid self
    (super_delete : M unit) s :
  let root := get_root self in
  let r := WithLockMixin.delete get_root tid self super_delete s in
  (locking_thread_id s !! root = Some tid →
     r = WithLockMixin.lock tid self self None super_delete s)
  ∧ (∀ e, locking_thread_id s !! root ≠ Some tid →
       name_error (get_semaphore_name root) = Some e →
       r = (Raise e, s, []))
  ∧ (∀ semr s1 t1,
       locking_thread_id s !! root ≠ Some tid →
       WithLockMixin._get_semaphore root s = (Return semr, s1, t1) →
       let s2 := entered tid root semr s1 in
       (value s1 semr = 0%N →
          (∃ msg, outcome_of r = Raise (BusyError msg))
          ∧ events (trace_of r)
            = events t1 ++ [EvBusy semr WithLockMixin.LOCK_DEFAULT_TIMEOUT]
          ∧ acquired (trace_of r) = []
          ∧ state_of r = s1
          ∧ (∀ super_delete' : M unit,
               WithLockMixin.delete get_root tid self super_delete' s = r))
       ∧ (value s1 semr ≠ 0%N → state s self = [] →
          outcome_of r
            = Raise (TypeError ("The resource <" +:+ self +:+ "> no longer exists."))
          ∧ events (trace_of r)
            = events t1 ++ [EvAcquire semr; EvHolder root (Some tid);
                            EvMarkDeleted self;
                            EvHolder root None; EvRelease semr; EvClose semr]
          ∧ acquired (trace_of r) = [get_semaphore_name root]
          ∧ sem_values (state_of r) = sem_values s1
          ∧ locking_thread_id (state_of r) !! root = None
          ∧ (∀ super_delete' : M unit,
               WithLockMixin.delete get_root tid self super_delete' s = r))
       ∧ (value s1 semr ≠ 0%N → state s self ≠ [] →
          events (trace_of r)
            = events t1 ++ [EvAcquire semr; EvHolder root (Some tid)]
                ++ events (trace_of (WithLockMixin.lock tid self self None super_delete s2))
                ++ [EvHolder root None; EvRelease semr; EvClose semr]
          ∧ (∀ sems s3 t3,
               locking_thread_id s2 !! self ≠ Some tid →
               WithLockMixin._get_semaphore self s2 = (Return sems, s3, t3) →
               value s3 sems ≠ 0%N →
               acquired (trace_of r)
               = [get_semaphore_name root; get_semaphore_name self]
                   ++ acquired (trace_of (super_delete (entered tid self sems s3))))
          ∧ (∀ sems s3 t3,
               locking_thread_id s2 !! self ≠ Some tid →
               WithLockMixin._get_semaphore self s2 = (Return sems, s3, t3) →
               value s3 sems = 0%N →
               (∃ msg, outcome_of r = Raise (BusyError msg))
               ∧ events (trace_of r)
                 = events t1 ++ [EvAcquire semr; EvHolder root (Some tid)]
                     ++ events t3
                     ++ [EvBusy sems WithLockMixin.LOCK_DEFAULT_TIMEOUT;
                         EvHolder root None; EvRelease semr; EvClose semr]
               ∧ sem_values (state_of r) = sem_values s1
               ∧ locking_thread_id (state_of r) !! root = None
               ∧ locking_thread_id (state_of r) !! self = locking_thread_id s2 !! self
               ∧ (∀ super_delete' : M unit,
                    WithLockMixin.delete get_root tid self super_delete' s = r))))
  ∧ (∀ sem s1 t1,
       Semaphore_O_CREAT (get_semaphore_name self) 1 s = (Return sem, s1, t1) →
       value s1 sem ≠ 0%N →
       acquired (trace_of (Base.delete self super_delete s))
       = get_semaphore_name self
           :: acquired (trace_of (super_delete
                                    (set_sem_value (sid sem) (N.pred (value s1 sem)) s1)))).
Proof.
  intros root r. subst r. unfold WithLockMixin.delete. fold root.
  split; [intros Hh; by apply lock_reentrant|].
  split; [intros e Hh He; by apply lock_refused|].
  split.
  - intros semr s1 t1 Hh Hs. set (s2 := entered tid root semr s1).
    destruct (_get_semaphore_frame _ _ _ _ _ Hs) as (Hnr & Hlr & Hgr & _).
    destruct (_get_semaphore_trace _ _ _ _ _ Hs) as [c Ht1].
    split; [|split].
    + intros Hv. rewrite (lock_busy _ _ _ _ _ _ _ _ _ Hh Hs Hv).
      unfold outcome_of, trace_of, state_of; cbn [fst snd].
      split; [by eexists|]. split; [by rewrite events_app|].
      split; [by rewrite Ht1|]. split; [done|].
      intros super'. apply (lock_busy _ _ _ _ _ _ _ _ _ Hh Hs Hv).
    + intros Hv Hg. rewrite (lock_stale _ _ _ _ _ _ _ _ _ Hh Hs Hv Hg).
      unfold outcome_of, trace_of, state_of; cbn [fst snd].
      split; [done|].
      split; [by rewrite !events_app, events_entry_trace, events_exit_trace|].
      split.
      { rewrite Ht1, !acquired_app, !acquired_cons, acquired_entry_trace,
          acquired_exit_trace, Hnr. reflexivity. }
      split.
      { change (sem_values (exited root semr (entered tid root semr s1)) = sem_values s1).
        by apply sem_values_exited_entered. }
      split; [apply holder_exited|].
      intros super'. apply (lock_stale _ _ _ _ _ _ _ _ _ Hh Hs Hv Hg).
    + intros Hv Hg.
      assert (Hg2 : state s2 self ≠ []).
      { subst s2. unfold entered.
        rewrite state_entered, (state_graphs s1 s self Hgr). done. }
      destruct (WithLockMixin.lock tid self self None super_delete s2)
        as [[r' s' ] t'] eqn:Hin.
      rewrite (lock_body _ _ _ _ _ _ _ _ _ r' s' t' Hh Hs Hv Hg Hin).
      unfold outcome_of, trace_of, state_of; cbn [fst snd].
      split; [by rewrite !events_app, events_entry_trace, events_exit_trace|].
      split.
      * intros sems s3 t3 Hh2 Hs2 Hv2.
        destruct (_get_semaphore_frame _ _ _ _ _ Hs2) as (Hns & _).
        destruct (_get_semaphore_trace _ _ _ _ _ Hs2) as [c2 ->].
        destruct (super_delete (entered tid self sems s3)) as [[r3 s4] t4] eqn:Hb.
        rewrite (lock_body _ _ _ _ _ _ _ _ _ r3 s4 t4 Hh2 Hs2 Hv2 Hg2 Hb) in Hin.
        injection Hin as _ _ <-. rewrite Ht1.
        rewrite !acquired_app, !acquired_cons, !acquired_app.
        rewrite acquired_entry_trace, !acquired_exit_trace, Hnr, Hns.
        cbn [snd app]. by rewrite !app_nil_r.
      * intros sems s3 t3 Hh2 Hs2 Hv2.
        pose proof (_get_semaphore_zero _ _ _ _ _ Hs2 Hv2) as ->.
        rewrite (lock_busy _ _ _ _ _ _ _ _ _ Hh2 Hs2 Hv2) in Hin.
        injection Hin as <- <- <-.
        split; [by eexists|].
        split.
        { rewrite !events_app, events_entry_trace, events_exit_trace.
          by rewrite <- !app_assoc. }
        split; [by apply sem_values_exited_entered|].
        split; [apply holder_exited|].
        split.
        { unfold exited; simpl.
          destruct (decide (root = self)) as [Heq|Hne].
          - exfalso. apply Hh2. rewrite <- Heq. apply holder_entered.
          - by rewrite lookup_delete_ne. }
        intros super'.
        pose proof (lock_busy tid self self None super' s2 sems s2 t3 Hh2 Hs2 Hv2) as Hin'.
        by rewrite (lock_body _ _ _ _ _ _ _ _ _ _ _ _ Hh Hs Hv Hg Hin').
  - intros sem s1 t1 Hs Hv. unfold Base.delete.
    destruct (_get_semaphore_trace self s sem s1 t1 Hs) as [c ->].
    destruct (_get_semaphore_frame self s sem s1 _ Hs) as (Hn & _).
    destruct (super_delete (set_sem_value (sid sem) (N.pred (value s1 sem)) s1))
      as [[r3 s3] t3] eqn:Hb.
    rewrite (get_lock_body _ _ _ _ _ _ _ r3 s3 t3 Hs Hv Hb).
    unfold trace_of; cbn [snd].
    rewrite !acquired_app, !acquired_cons. cbn [app].
    unfold acquired at 2 3. simpl. by rewrite Hn, app_nil_r.
Qed.

(** ** The holder record and the counter *)

(** C10, as far as it holds.  Every call of [lock] on a resource whose
    semaphore can be opened, around a body that leaves the holder record of
    the resource and the counter of its semaphore alone.
    - A call that acquires the semaphore: up to the acquisition the holder
      record is as it was; it is assigned right after the acquisition, and
      from then until it is cleared it names the caller and the counter is
      one below its value before the acquisition; it is cleared before the
      release, and from then on it is empty.
    - A call that times out leaves the state as it is.
    - A reentrant call is the run of its body.
    So, when the counter is at most 1 once the semaphore is opened and is 0
    if a holder is recorded then, the counter is 0 at every step at which a
    holder is recorded. *)
Theorem lock_holder_within_acquisition {A} tid self resource timeout
    (body : M A) s sem s1 t1 :
  WithLockMixin._get_semaphore self s = (Return sem, s1, t1) →
  (∀ s0, Forall (λ p, locking_thread_id p.2 !! self = locking_thread_id s0 !! self
                      ∧ value p.2 sem = value s0 sem)
                (trace_of (body s0))) →
  let r := WithLockMixin.lock tid self resource timeout body s in
  (locking_thread_id s !! self ≠ Some tid → value s1 sem ≠ 0%N →
     ∃ before during after,
       trace_of r = before ++ during ++ after
       ∧ events before = events t1 ++ [EvAcquire sem]
       ∧ (∃ steps, events during = EvHolder self (Some tid) :: steps)
       ∧ events after = [EvHolder self None; EvRelease sem; EvClose sem]
       ∧ Forall (λ p, locking_thread_id p.2 !! self = locking_thread_id s !! self) before
       ∧ Forall (λ p, locking_thread_id p.2 !! self = Some tid
                      ∧ value p.2 sem = N.pred (value s1 sem)) during
       ∧ Forall (λ p, locking_thread_id p.2 !! self = None) after)
  ∧ (locking_thread_id s !! self ≠ Some tid → value s1 sem = 0%N →
       events (trace_of r)
       = events t1 ++ [EvBusy sem (default WithLockMixin.LOCK_DEFAULT_TIMEOUT timeout)]
       ∧ Forall (λ p, p.2 = s) (trace_of r)
       ∧ state_of r = s)
  ∧ (locking_thread_id s !! self = Some tid → r = body s)
  ∧ ((value s1 sem ≤ 1)%N →
     (is_Some (locking_thread_id s1 !! self) → value s1 sem = 0%N) →
     Forall (λ p, is_Some (locking_thread_id p.2 !! self) → value p.2 sem = 0%N)
            (trace_of r)).
Proof.
  intros Hs Hframe r.
  destruct (_get_semaphore_frame _ _ _ _ _ Hs) as (_ & Hl & _).
  destruct (_get_semaphore_trace _ _ _ _ _ Hs) as [c Ht1]. subst t1.
  assert (Hacq : locking_thread_id s !! self ≠ Some tid → value s1 sem ≠ 0%N →
     ∃ before during after,
       trace_of r = before ++ during ++ after
       ∧ events before = events [(EvOpen sem c, s1)] ++ [EvAcquire sem]
       ∧ (∃ steps, events during = EvHolder self (Some tid) :: steps)
       ∧ events after = [EvHolder self None; EvRelease sem; EvClose sem]
       ∧ Forall (λ p, locking_thread_id p.2 !! self = locking_thread_id s !! self) before
       ∧ Forall (λ p, locking_thread_id p.2 !! self = Some tid
                      ∧ value p.2 sem = N.pred (value s1 sem)) during
       ∧ Forall (λ p, locking_thread_id p.2 !! self = None) after).
  { intros Hh Hv.
    assert (Hbefore : Forall (λ p : Event * State,
                        locking_thread_id p.2 !! self = locking_thread_id s !! self)
                      [(EvOpen sem c, s1);
                       (EvAcquire sem, set_sem_value (sid sem) (N.pred (value s1 sem)) s1)]).
    { rewrite !Forall_cons, Forall_nil. cbn [snd]. split_and!; try done.
      - by rewrite Hl.
      - simpl. by rewrite Hl. }
    assert (Hfirst : locking_thread_id (entered tid self sem s1) !! self = Some tid
                     ∧ value (entered tid self sem s1) sem = N.pred (value s1 sem)).
    { split; [apply holder_entered|apply value_entered]. }
    assert (Hafter : ∀ s3, Forall (λ p : Event * State, locking_thread_id p.2 !! self = None)
                             (exit_trace self sem s3)).
    { intros s3. unfold exit_trace. rewrite !Forall_cons, Forall_nil. cbn [snd].
      split_and!; try done.
      - simpl. apply lookup_delete_eq.
      - apply holder_exited.
      - apply holder_exited. }
    subst r. destruct (decide (state s resource = [])) as [Hg|Hg].
    - rewrite (lock_stale _ _ _ _ _ _ _ _ _ Hh Hs Hv Hg). unfold trace_of; cbn [snd].
      exists [(EvOpen sem c, s1);
              (EvAcquire sem, set_sem_value (sid sem) (N.pred (value s1 sem)) s1)],
             [(EvHolder self (Some tid), entered tid self sem s1);
              (EvMarkDeleted resource, set_deleted resource (entered tid self sem s1))],
             (exit_trace self sem (set_deleted resource (entered tid self sem s1))).
      split; [done|]. split; [done|]. split; [by eexists|]. split; [done|].
      split; [done|]. split; [|done].
      rewrite !Forall_cons, Forall_nil. cbn [snd]. split_and!; try done; apply Hfirst.
    - destruct (body (entered tid self sem s1)) as [[r3 s3] t3] eqn:Hb.
      rewrite (lock_body _ _ _ _ _ _ _ _ _ r3 s3 t3 Hh Hs Hv Hg Hb).
      unfold trace_of; cbn [snd].
      exists [(EvOpen sem c, s1);
              (EvAcquire sem, set_sem_value (sid sem) (N.pred (value s1 sem)) s1)],
             ((EvHolder self (Some tid), entered tid self sem s1) :: t3),
             (exit_trace self sem s3).
      split; [done|]. split; [done|]. split; [by eexists|]. split; [done|].
      split; [done|]. split; [|done].
      rewrite Forall_cons. cbn [snd]. split; [done|].
      specialize (Hframe (entered tid self sem s1)). rewrite Hb in Hframe.
      unfold trace_of in Hframe; cbn [snd] in Hframe.
      eapply Forall_impl; [exact Hframe|].
      intros p [Hp1 Hp2]. destruct Hfirst as [Hf1 Hf2]. by rewrite Hp1, Hp2. }
  assert (Hbusy : locking_thread_id s !! self ≠ Some tid → value s1 sem = 0%N →
       events (trace_of r)
       = events [(EvOpen sem c, s1)]
           ++ [EvBusy sem (default WithLockMixin.LOCK_DEFAULT_TIMEOUT timeout)]
       ∧ Forall (λ p, p.2 = s) (trace_of r)
       ∧ state_of r = s).
  { intros Hh Hv. subst r. rewrite (lock_busy _ _ _ _ _ _ _ _ _ Hh Hs Hv).
    pose proof (_get_semaphore_zero _ _ _ _ _ Hs Hv) as ->.
    unfold trace_of, state_of; cbn [fst snd].
    split; [by rewrite events_app|]. split; [|done].
    cbn [app]. by rewrite !Forall_cons, Forall_nil. }
  assert (Hre : locking_thread_id s !! self = Some tid → r = body s).
  { intros Hh. by apply lock_reentrant. }
  split; [done|]. split; [done|]. split; [done|].
  intros Hle Hinv.
  destruct (decide (locking_thread_id s !! self = Some tid)) as [Hh|Hh].
  { rewrite (Hre Hh).
    assert (Hv : value s1 sem = 0%N) by (apply Hinv; rewrite Hl, Hh; by eexists).
    pose proof (_get_semaphore_zero _ _ _ _ _ Hs Hv) as ->.
    eapply Forall_impl; [exact (Hframe s)|].
    intros p [Hp1 Hp2] _. by rewrite Hp2. }
  destruct (decide (value s1 sem = 0%N)) as [Hv|Hv].
  { destruct (Hbusy Hh Hv) as (_ & Hall & _).
    pose proof (_get_semaphore_zero _ _ _ _ _ Hs Hv) as ->.
    eapply Forall_impl; [exact Hall|]. by intros p ->. }
  assert (Hone : value s1 sem = 1%N) by lia.
  assert (Hnone : locking_thread_id s !! self = None).
  { destruct (locking_thread_id s !! self) as [t|] eqn:E; [|done].
    exfalso. apply Hv, Hinv. rewrite Hl, E. by eexists. }
  destruct (Hacq Hh Hv) as (before & during & after & -> & _ & _ & _ & Hb & Hd & Ha).
  rewrite !Forall_app. split_and!.
  - eapply Forall_impl; [exact Hb|]. intros p Hp [t Ht]. by rewrite Hp, Hnone in Ht.
  - eapply Forall_impl; [exact Hd|]. intros p [_ Hp] _. by rewrite Hp, Hone.
  - eapply Forall_impl; [exact Ha|]. intros p Hp [t Ht]. by rewrite Hp in Ht.
Qed.

(** ** Concrete runs *)

(** The deletion of the base in a state without semaphores: the root's
    semaphore is acquired and the base exists. *)
Lemma delete_locks_root_then_self_witness :
  locking_thread_id s_fresh !! root_uri ≠ Some 7%Z
  ∧ WithLockMixin._get_semaphore root_uri s_fresh
    = (Return root_sem, created (get_semaphore_name root_uri) s_fresh,
       [(EvOpen root_sem true, created (get_semaphore_name root_uri) s_fresh)])
  ∧ value (created (get_semaphore_name root_uri) s_fresh) root_sem ≠ 0%N
  ∧ state s_fresh base_uri ≠ []
  ∧ events (trace_of (WithLockMixin.delete root_of 7 base_uri
                        (call_super "delete" base_uri) s_fresh))
    = [EvOpen root_sem true] ++ [EvAcquire root_sem; EvHolder root_uri (Some 7%Z)]
        ++ events (trace_of (WithLockMixin.lock 7 base_uri base_uri None
                               (call_super "delete" base_uri)
                               (entered 7 root_uri root_sem
                                  (created (get_semaphore_name root_uri) s_fresh))))
        ++ [EvHolder root_uri None; EvRelease root_sem; EvClose root_sem].
Proof.
  assert (H1 : locking_thread_id s_fresh !! root_uri ≠ Some 7%Z) by (vm_compute; discriminate).
  assert (H2 : WithLockMixin._get_semaphore root_uri s_fresh
               = (Return root_sem, created (get_semaphore_name root_uri) s_fresh,
                  [(EvOpen root_sem true, created (get_semaphore_name root_uri) s_fresh)]))
    by reflexivity.
  assert (H3 : value (created (get_semaphore_name root_uri) s_fresh) root_sem ≠ 0%N)
    by (vm_compute; discriminate).
  assert (H4 : state s_fresh base_uri ≠ []) by (vm_compute; discriminate).
  split_and!; try assumption.
  exact (proj1 (proj2 (proj2 (proj1 (proj2 (proj2
           (delete_locks_root_then_self root_of 7 base_uri
              (call_super "delete" base_uri) s_fresh))) root_sem _ _ H1 H2)) H3 H4)).
Defined.

(** [Base.delete] of [base.py] on the same input: the only semaphore acquired
    is the base's own, the root's is not touched.  Were the inherited [delete]
    the one of [WithLockMixin], the base's own semaphore would still come
    first, before the root's.  And [WithLockMixin.delete] itself, on a base
    whose state is empty, acquires the root's semaphore only. *)
Lemma Base_delete_acquires_only_self :
  events (trace_of (Base.delete base_uri (call_super "delete" base_uri) s_fresh))
  = [EvOpen base_sem true; EvAcquire base_sem; EvSuper "delete" base_uri;
     EvRelease base_sem]
  ∧ acquired (trace_of (Base.delete base_uri (call_super "delete" base_uri) s_fresh))
    = [get_semaphore_name base_uri]
  ∧ get_semaphore_name (root_of base_uri) = "/http:--h-"
  ∧ get_semaphore_name base_uri = "/http:--h-b1-"
  ∧ acquired (trace_of (Base.delete base_uri
                          (WithLockMixin.delete root_of 7 base_uri
                             (call_super "delete" base_uri)) s_fresh))
    = ["/http:--h-b1-"; "/http:--h-"]
  ∧ acquired (trace_of (WithLockMixin.delete root_of 7 base_uri
                          (call_super "delete" base_uri) (s_base 1 None [])))
    = ["/http:--h-"]
  ∧ outcome_of (WithLockMixin.delete root_of 7 base_uri
                  (call_super "delete" base_uri) (s_base 1 None []))
    = Raise (TypeError "The resource <http://h/b1/> no longer exists.").
Proof. by vm_compute. Qed.

(** The caller, thread 7, holds the lock of the base and enters two further
    scopes on it. *)
Lemma lock_reentrant_without_semaphore_witness :
  locking_thread_id (s_base 0 (Some 7%Z) base_graph) !! base_uri = Some 7%Z
  ∧ lock_nested 7 base_uri [(base_uri, None); (root_uri, Some (1 : Q))]
      (call_super "post_graph" base_uri) (s_base 0 (Some 7%Z) base_graph)
    = call_super "post_graph" base_uri (s_base 0 (Some 7%Z) base_graph).
Proof.
  assert (H : locking_thread_id (s_base 0 (Some 7%Z) base_graph) !! base_uri = Some 7%Z)
    by reflexivity.
  split; [assumption|].
  exact (proj1 (lock_reentrant_without_semaphore 7 base_uri
                  [(base_uri, None); (root_uri, Some (1 : Q))]
                  (call_super "post_graph" base_uri) _ H)).
Defined.

(** The caller holds the lock of a base whose state is empty. *)
Lemma lock_reentrant_skips_existence_check_witness :
  state (s_base 0 (Some 7%Z) []) base_uri = []
  ∧ (locking_thread_id (s_base 0 (Some 7%Z) []) !! base_uri = Some 7%Z →
     WithLockMixin.lock 7 base_uri base_uri None (call_super "edit" base_uri)
       (s_base 0 (Some 7%Z) [])
     = call_super "edit" base_uri (s_base 0 (Some 7%Z) [])).
Proof.
  assert (H : state (s_base 0 (Some 7%Z) []) base_uri = []) by reflexivity.
  split; [assumption|].
  exact (proj1 (lock_reentrant_skips_existence_check 7 base_uri base_uri None
                  (call_super "edit" base_uri) _ H)).
Defined.

(** A body that raises, in a state without semaphores. *)
Lemma lock_always_releases_witness :
  locking_thread_id s_fresh !! base_uri ≠ Some 7%Z
  ∧ WithLockMixin._get_semaphore base_uri s_fresh
    = (Return base_sem, created (get_semaphore_name base_uri) s_fresh,
       [(EvOpen base_sem true, created (get_semaphore_name base_uri) s_fresh)])
  ∧ value (created (get_semaphore_name base_uri) s_fresh) base_sem ≠ 0%N
  ∧ ∃ steps,
      events (trace_of (WithLockMixin.lock 7 base_uri base_uri None
                          (raise (Exception "boom") : M unit) s_fresh))
      = steps ++ [EvHolder base_uri None; EvRelease base_sem; EvClose base_sem].
Proof.
  assert (H1 : locking_thread_id s_fresh !! base_uri ≠ Some 7%Z) by (vm_compute; discriminate).
  assert (H2 : WithLockMixin._get_semaphore base_uri s_fresh
               = (Return base_sem, created (get_semaphore_name base_uri) s_fresh,
                  [(EvOpen base_sem true, created (get_semaphore_name base_uri) s_fresh)]))
    by reflexivity.
  assert (H3 : value (created (get_semaphore_name base_uri) s_fresh) base_sem ≠ 0%N)
    by (vm_compute; discriminate).
  split_and!; try assumption.
  exact (proj1 (lock_always_releases 7 base_uri base_uri None
                  (raise (Exception "boom") : M unit) s_fresh base_sem _ _ H1 H2 H3)).
Defined.

(** The semaphore of the base is free and the state of the base is empty. *)
Lemma lock_stale_resource_witness :
  locking_thread_id (s_base 1 None []) !! base_uri ≠ Some 7%Z
  ∧ WithLockMixin._get_semaphore base_uri (s_base 1 None [])
    = (Return base_sem, s_base 1 None [], [(EvOpen base_sem false, s_base 1 None [])])
  ∧ value (s_base 1 None []) base_sem ≠ 0%N
  ∧ state (s_base 1 None []) base_uri = []
  ∧ outcome_of (WithLockMixin.lock 7 base_uri base_uri None
                  (call_super "edit" base_uri) (s_base 1 None []))
    = Raise (TypeError "The resource <http://h/b1/> no longer exists.").
Proof.
  assert (H1 : locking_thread_id (s_base 1 None []) !! base_uri ≠ Some 7%Z)
    by (vm_compute; discriminate).
  assert (H2 : WithLockMixin._get_semaphore base_uri (s_base 1 None [])
               = (Return base_sem, s_base 1 None [],
                  [(EvOpen base_sem false, s_base 1 None [])])) by reflexivity.
  assert (H3 : value (s_base 1 None []) base_sem ≠ 0%N) by (vm_compute; discriminate).
  assert (H4 : state (s_base 1 None []) base_uri = []) by reflexivity.
  split_and!; try assumption.
  exact (proj1 (lock_stale_resource 7 base_uri base_uri None
                  (call_super "edit" base_uri) _ base_sem _ _ H1 H2 H3 H4)).
Defined.

(** The semaphore of the base is at 0 and thread 9 is its recorded holder. *)
Lemma lock_busy_error_witness :
  locking_thread_id (s_base 0 (Some 9%Z) base_graph) !! base_uri ≠ Some 7%Z
  ∧ WithLockMixin._get_semaphore base_uri (s_base 0 (Some 9%Z) base_graph)
    = (Return base_sem, s_base 0 (Some 9%Z) base_graph,
       [(EvOpen base_sem false, s_base 0 (Some 9%Z) base_graph)])
  ∧ value (s_base 0 (Some 9%Z) base_graph) base_sem = 0%N
  ∧ outcome_of (WithLockMixin.lock 7 base_uri base_uri None
                  (call_super "edit" base_uri) (s_base 0 (Some 9%Z) base_graph))
    = Raise (BusyError "The resource <http://h/b1/> is locked by thread 9.").
Proof.
  assert (H1 : locking_thread_id (s_base 0 (Some 9%Z) base_graph) !! base_uri ≠ Some 7%Z)
    by (vm_compute; discriminate).
  assert (H2 : WithLockMixin._get_semaphore base_uri (s_base 0 (Some 9%Z) base_graph)
               = (Return base_sem, s_base 0 (Some 9%Z) base_graph,
                  [(EvOpen base_sem false, s_base 0 (Some 9%Z) base_graph)]))
    by reflexivity.
  assert (H3 : value (s_base 0 (Some 9%Z) base_graph) base_sem = 0%N) by reflexivity.
  split_and!; try assumption.
  refine (proj1 (lock_busy_error 7 base_uri base_uri None
                   (call_super "edit" base_uri) _ base_sem _ _ H1 H2 H3) 9%Z _ _).
  - reflexivity.
  - discriminate.
Defined.

(** The deletion of the base is acknowledged while its semaphore is at 0. *)
Lemma ack_delete_unlinks_witness :
  outcome_of (WithLockMixin.ack_delete base_uri (call_super "ack_delete" base_uri)
                (s_base 0 None base_graph)) = Return ()
  ∧ sem_names (state_of (WithLockMixin.ack_delete base_uri
                           (call_super "ack_delete" base_uri)
                           (s_base 0 None base_graph)))
      !! get_semaphore_name base_uri = None.
Proof.
  assert (H : outcome_of (WithLockMixin.ack_delete base_uri
                            (call_super "ack_delete" base_uri)
                            (s_base 0 None base_graph)) = Return ()) by reflexivity.
  split; [assumption|].
  exact (proj1 (proj1 (ack_delete_unlinks base_uri (call_super "ack_delete" base_uri)
                         (s_base 0 None base_graph)) H)).
Defined.

(** [Base.ack_delete] of [base.py], for a base whose semaphore exists (as
    [Base.delete] leaves it): the acknowledgement completes, the root no
    longer lists the base, and the semaphore name of the base is still
    bound.  The same at the end of [Base.delete] around it. *)
Lemma Base_ack_delete_keeps_semaphore :
  outcome_of (Base.ack_delete root_of "ktbs:hasBase" "rdf:type" "ktbs:Base" base_uri
                (call_super "ack_delete" base_uri) plain_edit
                (s_base 1 None base_graph)) = Return ()
  ∧ events (trace_of (Base.ack_delete root_of "ktbs:hasBase" "rdf:type" "ktbs:Base" base_uri
                        (call_super "ack_delete" base_uri) plain_edit
                        (s_base 1 None base_graph)))
    = [EvSuper "ack_delete" base_uri; EvSuper "edit" root_uri]
  ∧ state (state_of (Base.ack_delete root_of "ktbs:hasBase" "rdf:type" "ktbs:Base" base_uri
                       (call_super "ack_delete" base_uri) plain_edit
                       (s_base 1 None base_graph))) root_uri = []
  ∧ sem_names (state_of (Base.ack_delete root_of "ktbs:hasBase" "rdf:type" "ktbs:Base"
                           base_uri (call_super "ack_delete" base_uri) plain_edit
                           (s_base 1 None base_graph)))
      !! get_semaphore_name base_uri = Some 0
  ∧ sem_names (state_of (Base.delete base_uri
                           (Base.ack_delete root_of "ktbs:hasBase" "rdf:type" "ktbs:Base"
                              base_uri (call_super "ack_delete" base_uri) plain_edit)
                           s_fresh))
      !! get_semaphore_name base_uri = Some 0.
Proof. by vm_compute. Qed.

(** An identifier that the system accepts. *)
Lemma reset_lock_frees_witness :
  name_error (get_semaphore_name base_uri) = None
  ∧ outcome_of (reset_lock base_uri s_fresh) = Return ().
Proof.
  assert (H : name_error (get_semaphore_name base_uri) = None) by reflexivity.
  split; [assumption|].
  exact (proj1 (proj2 (proj2 (reset_lock_frees base_uri s_fresh)) H)).
Defined.

(** [reset_lock] on the empty identifier, whose name is a bare slash, and on
    an identifier of 260 characters: a [ValueError], and no semaphore. *)
Lemma reset_lock_refused_names :
  (∃ msg, reset_lock "" s_fresh = (Raise (ValueError msg), s_fresh, []))
  ∧ (∃ msg, reset_lock long_uri s_fresh = (Raise (ValueError msg), s_fresh, []))
  ∧ String.length long_uri = 260
  ∧ sem_names (state_of (reset_lock "" s_fresh)) !! get_semaphore_name "" = None
  ∧ sem_names (state_of (reset_lock long_uri s_fresh)) !! get_semaphore_name long_uri
    = None.
Proof. split_and!; try (by eexists; vm_compute); by vm_compute. Qed.

(** With the semaphore at 2, the state that the note of [reset_lock]
    describes, the holder is recorded while the counter is 1. *)
Lemma lock_holder_with_positive_counter :
  points base_uri base_sem
    (trace_of (WithLockMixin.lock 7 base_uri base_uri None
                 (call_super "edit" base_uri) (s_base 2 None base_graph)))
  = [(EvOpen base_sem false, None, 2%N);
     (EvAcquire base_sem, None, 1%N);
     (EvHolder base_uri (Some 7%Z), Some 7%Z, 1%N);
     (EvSuper "edit" base_uri, Some 7%Z, 1%N);
     (EvHolder base_uri None, None, 1%N);
     (EvRelease base_sem, None, 2%N);
     (EvClose base_sem, None, 2%N)].
Proof. by vm_compute. Qed.

(** With the semaphore at 0 and thread 9 recorded as its holder, a call by
    thread 7: the counter is 0 wherever a holder is recorded. *)
Lemma lock_holder_within_acquisition_witness :
  WithLockMixin._get_semaphore base_uri (s_base 0 (Some 9%Z) base_graph)
  = (Return base_sem, s_base 0 (Some 9%Z) base_graph,
     [(EvOpen base_sem false, s_base 0 (Some 9%Z) base_graph)])
  ∧ (∀ s0, Forall (λ p, locking_thread_id p.2 !! base_uri = locking_thread_id s0 !! base_uri
                        ∧ value p.2 base_sem = value s0 base_sem)
                  (trace_of (call_super "edit" base_uri s0)))
  ∧ Forall (λ p, is_Some (locking_thread_id p.2 !! base_uri) → value p.2 base_sem = 0%N)
           (trace_of (WithLockMixin.lock 7 base_uri base_uri None
                        (call_super "edit" base_uri) (s_base 0 (Some 9%Z) base_graph))).
Proof.
  assert (H1 : WithLockMixin._get_semaphore base_uri (s_base 0 (Some 9%Z) base_graph)
               = (Return base_sem, s_base 0 (Some 9%Z) base_graph,
                  [(EvOpen base_sem false, s_base 0 (Some 9%Z) base_graph)]))
    by reflexivity.
  assert (H2 : ∀ s0, Forall (λ p, locking_thread_id p.2 !! base_uri
                                   = locking_thread_id s0 !! base_uri
                                  ∧ value p.2 base_sem = value s0 base_sem)
                            (trace_of (call_super "edit" base_uri s0))).
  { intros s0. unfold trace_of, call_super; cbn [snd].
    constructor; [split; reflexivity|constructor]. }
  split_and!; try assumption.
  refine (proj2 (proj2 (proj2 (lock_holder_within_acquisition 7 base_uri base_uri None
                                 (call_super "edit" base_uri) _ base_sem _ _ H1 H2))) _ _).
  - by vm_compute.
  - intros _. reflexivity.
Defined.

(** * Further properties of the locking code *)

(** ** Threads against each other *)

Lemma _get_semaphore_bound self s sem s1 t1 :
  WithLockMixin._get_semaphore self s = (Return sem, s1, t1) →
  sem = mkSemaphore (get_semaphore_name self) (sid sem)
  ∧ sem_names s1 !! get_semaphore_name self = Some (sid sem).
Proof.
  unfold WithLockMixin._get_semaphore, Semaphore_O_CREAT.
  destruct (name_error (get_semaphore_name self)); [done|].
  destruct (sem_names s !! get_semaphore_name self) eqn:H; intros [= <- <- <-].
  - done.
  - split; [done|]. simpl. apply lookup_insert_eq.
Qed.

(** Opening the semaphore of [self] in a state that has the same names as
    the one in which it was opened before. *)
Lemma _get_semaphore_again self s sem s1 t1 s' :
  WithLockMixin._get_semaphore self s = (Return sem, s1, t1) →
  sem_names s' = sem_names s1 →
  WithLockMixin._get_semaphore self s' = (Return sem, s', [(EvOpen sem false, s')]).
Proof.
  intros Hs Hn. destruct (_get_semaphore_bound _ _ _ _ _ Hs) as [Hsem Hb].
  unfold WithLockMixin._get_semaphore.
  rewrite (Semaphore_O_CREAT_present _ _ (sid sem))
    by (by rewrite ?Hn; eauto using Semaphore_O_CREAT_accepted).
  by rewrite <- Hsem.
Qed.

(** X1.  While a thread is inside the lock of a resource that it acquired from a
    counter of 1, a call of [lock] on that resource by another thread times
    out: its [BusyError] names the thread inside, its body does not run and
    the state is left as it is. *)
Theorem lock_excludes_other_thread {A} t1 t2 self resource timeout (body : M A)
    s sem s1 tr1 :
  WithLockMixin._get_semaphore self s = (Return sem, s1, tr1) →
  value s1 sem = 1%N →
  t2 ≠ t1 →
  t1 ≠ 0%Z →
  WithLockMixin.lock t2 self resource timeout body (entered t1 self sem s1)
  = (Raise (BusyError ("The resource <" +:+ self +:+ "> is locked by thread "
                         +:+ format_ident t1 +:+ ".")),
     entered t1 self sem s1,
     [(EvOpen sem false, entered t1 self sem s1);
      (EvBusy sem (default WithLockMixin.LOCK_DEFAULT_TIMEOUT timeout),
       entered t1 self sem s1)]).
Proof.
  intros Hs Hv Hne Hnz.
  assert (Hh : locking_thread_id (entered t1 self sem s1) !! self ≠ Some t2).
  { rewrite holder_entered. congruence. }
  assert (Hs' := _get_semaphore_again self s sem s1 tr1 (entered t1 self sem s1) Hs eq_refl).
  assert (Hv' : value (entered t1 self sem s1) sem = 0%N).
  { by rewrite value_entered, Hv. }
  rewrite (lock_busy _ _ _ _ _ _ _ _ _ Hh Hs' Hv').
  rewrite holder_entered. unfold busy_message, thread_id_text.
  by rewrite decide_False.
Qed.

Lemma lock_excludes_other_thread_witness :
  WithLockMixin._get_semaphore base_uri (s_base 1 None base_graph)
  = (Return base_sem, s_base 1 None base_graph,
     [(EvOpen base_sem false, s_base 1 None base_graph)])
  ∧ value (s_base 1 None base_graph) base_sem = 1%N
  ∧ 9%Z ≠ 7%Z
  ∧ 7%Z ≠ 0%Z
  ∧ outcome_of (WithLockMixin.lock 9 base_uri base_uri None (call_super "edit" base_uri)
                  (entered 7 base_uri base_sem (s_base 1 None base_graph)))
    = Raise (BusyError "The resource <http://h/b1/> is locked by thread 7.").
Proof.
  assert (H1 : WithLockMixin._get_semaphore base_uri (s_base 1 None base_graph)
               = (Return base_sem, s_base 1 None base_graph,
                  [(EvOpen base_sem false, s_base 1 None base_graph)])) by reflexivity.
  assert (H2 : value (s_base 1 None base_graph) base_sem = 1%N) by reflexivity.
  assert (H3 : 9%Z ≠ 7%Z) by discriminate.
  assert (H4 : 7%Z ≠ 0%Z) by discriminate.
  split_and!; try assumption.
  exact (f_equal outcome_of
           (lock_excludes_other_thread 7 9 base_uri base_uri None
              (call_super "edit" base_uri) _ base_sem _ _ H1 H2 H3 H4)).
Defined.

(** X2.  The hazard that the note of [reset_lock] describes.  [reset_lock] called
    on a resource while its lock is held, acquired from a counter of 1, finds
    the counter at 0 and releases it; the exit of [lock] releases it again
    and leaves it at 2.  From then on a thread inside the lock does not keep
    another thread out: the other thread acquires the semaphore too. *)
Theorem reset_lock_while_locked t1 self resource timeout s sem s1 tr1 :
  locking_thread_id s !! self ≠ Some t1 →
  WithLockMixin._get_semaphore self s = (Return sem, s1, tr1) →
  value s1 sem = 1%N →
  state s resource ≠ [] →
  let r := WithLockMixin.lock t1 self resource timeout (reset_lock self) s in
  outcome_of r = Return ()
  ∧ events (trace_of r)
    = events tr1 ++ [EvAcquire sem; EvHolder self (Some t1);
                     EvOpen sem false; EvRelease sem; EvClose sem;
                     EvHolder self None; EvRelease sem; EvClose sem]
  ∧ value (state_of r) sem = 2%N
  ∧ (∀ A t2 t3 resource' timeout' (body : M A),
       t3 ≠ t2 →
       EvAcquire sem
         ∈ events (trace_of (WithLockMixin.lock t3 self resource' timeout' body
                               (entered t2 self sem (state_of r))))).
Proof.
  intros Hh Hs Hv Hg r.
  destruct (_get_semaphore_bound _ _ _ _ _ Hs) as [Hsem Hb].
  assert (Hv0 : value (entered t1 self sem s1) (mkSemaphore (get_semaphore_name self) (sid sem))
                = 0%N).
  { rewrite <- Hsem. by rewrite value_entered, Hv. }
  assert (Hok := Semaphore_O_CREAT_accepted _ _ _ _ _ _ Hs).
  assert (Hreset := reset_lock_zero self (entered t1 self sem s1) (sid sem) Hok Hb Hv0).
  rewrite <- Hsem in Hreset.
  assert (Hv1 : value s1 sem ≠ 0%N) by (by rewrite Hv).
  assert (Hr := lock_body t1 self resource timeout (reset_lock self) s sem s1 tr1
                  _ _ _ Hh Hs Hv1 Hg Hreset).
  subst r. rewrite Hr. unfold outcome_of, trace_of, state_of; cbn [fst snd].
  assert (Hfinal : value (exited self sem (set_sem_value (sid sem) 1 (entered t1 self sem s1)))
                         sem = 2%N).
  { by rewrite value_exited, value_set_sem_value. }
  split; [done|].
  split; [by rewrite !events_app, events_entry_trace, events_exit_trace|].
  split; [done|].
  intros A t2 t3 resource' timeout' body Hne.
  set (sf := exited self sem (set_sem_value (sid sem) 1 (entered t1 self sem s1))) in *.
  apply (lock_acquires t3 self resource' timeout' body (entered t2 self sem sf) sem
           (entered t2 self sem sf) [(EvOpen sem false, entered t2 self sem sf)]).
  - rewrite holder_entered. congruence.
  - by apply (_get_semaphore_again self s sem s1 tr1).
  - by rewrite value_entered, Hfinal.
Qed.

Lemma reset_lock_while_locked_witness :
  locking_thread_id (s_base 1 None base_graph) !! base_uri ≠ Some 7%Z
  ∧ WithLockMixin._get_semaphore base_uri (s_base 1 None base_graph)
    = (Return base_sem, s_base 1 None base_graph,
       [(EvOpen base_sem false, s_base 1 None base_graph)])
  ∧ value (s_base 1 None base_graph) base_sem = 1%N
  ∧ state (s_base 1 None base_graph) base_uri ≠ []
  ∧ value (state_of (WithLockMixin.lock 7 base_uri base_uri None (reset_lock base_uri)
                       (s_base 1 None base_graph))) base_sem = 2%N.
Proof.
  assert (H1 : locking_thread_id (s_base 1 None base_graph) !! base_uri ≠ Some 7%Z)
    by (vm_compute; discriminate).
  assert (H2 : WithLockMixin._get_semaphore base_uri (s_base 1 None base_graph)
               = (Return base_sem, s_base 1 None base_graph,
                  [(EvOpen base_sem false, s_base 1 None base_graph)])) by reflexivity.
  assert (H3 : value (s_base 1 None base_graph) base_sem = 1%N) by reflexivity.
  assert (H4 : state (s_base 1 None base_graph) base_uri ≠ []) by (vm_compute; discriminate).
  split_and!; try assumption.
  exact (proj1 (proj2 (proj2 (reset_lock_while_locked 7 base_uri base_uri None
                                _ base_sem _ _ H1 H2 H3 H4)))).
Defined.

(** ** More on [WithLockMixin.delete] *)

(** X3.  [WithLockMixin.delete] when the resource's own lock is held by somebody
    else: the [BusyError] of the inner scope, which names the resource and
    its recorded holder, passes through the [except] clause of the root's
    scope, after the root's [finally] clause has cleared the holder; what
    the caller of [delete] gets names the root, as locked by [Unknown]. *)
Theorem delete_busy_names_root (get_root : string → string) tid self
    (super_delete : M unit) s semr s1 t1 sems s3 t3 :
  let root := get_root self in
  locking_thread_id s !! root ≠ Some tid →
  WithLockMixin._get_semaphore root s = (Return semr, s1, t1) →
  value s1 semr ≠ 0%N →
  state s self ≠ [] →
  let s2 := entered tid root semr s1 in
  locking_thread_id s2 !! self ≠ Some tid →
  WithLockMixin._get_semaphore self s2 = (Return sems, s3, t3) →
  value s3 sems = 0%N →
  outcome_of (WithLockMixin.lock tid self self None super_delete s2)
    = Raise (BusyError ("The resource <" +:+ self +:+ "> is locked by thread "
                          +:+ thread_id_text (locking_thread_id s2 !! self) +:+ "."))
  ∧ outcome_of (WithLockMixin.delete get_root tid self super_delete s)
    = Raise (BusyError ("The resource <" +:+ root +:+ "> is locked by thread Unknown.")).
Proof.
  intros root Hh Hs Hv Hg s2 Hh2 Hs2 Hv2.
  pose proof (lock_busy tid self self None super_delete s2 sems s3 t3 Hh2 Hs2 Hv2) as Hin.
  split; [by rewrite Hin|].
  unfold WithLockMixin.delete. fold root.
  by rewrite (lock_body _ _ _ _ _ _ _ _ _ _ _ _ Hh Hs Hv Hg Hin).
Qed.

Lemma delete_busy_names_root_witness :
  locking_thread_id (s_base 0 (Some 9%Z) base_graph) !! root_uri ≠ Some 7%Z
  ∧ WithLockMixin._get_semaphore root_uri (s_base 0 (Some 9%Z) base_graph)
    = (Return (mkSemaphore "/http:--h-" 1),
       created (get_semaphore_name root_uri) (s_base 0 (Some 9%Z) base_graph),
       [(EvOpen (mkSemaphore "/http:--h-" 1) true,
         created (get_semaphore_name root_uri) (s_base 0 (Some 9%Z) base_graph))])
  ∧ outcome_of (WithLockMixin.delete root_of 7 base_uri (call_super "delete" base_uri)
                  (s_base 0 (Some 9%Z) base_graph))
    = Raise (BusyError "The resource <http://h/> is locked by thread Unknown.").
Proof.
  assert (H1 : locking_thread_id (s_base 0 (Some 9%Z) base_graph) !! root_uri ≠ Some 7%Z)
    by (vm_compute; discriminate).
  assert (H2 : WithLockMixin._get_semaphore root_uri (s_base 0 (Some 9%Z) base_graph)
    = (Return (mkSemaphore "/http:--h-" 1),
       created (get_semaphore_name root_uri) (s_base 0 (Some 9%Z) base_graph),
       [(EvOpen (mkSemaphore "/http:--h-" 1) true,
         created (get_semaphore_name root_uri) (s_base 0 (Some 9%Z) base_graph))]))
    by reflexivity.
  split_and!; try assumption.
  refine (proj2 (delete_busy_names_root root_of 7 base_uri (call_super "delete" base_uri)
                   _ _ _ _ base_sem _ _ H1 H2 _ _ _ _ _)).
  - vm_compute; discriminate.
  - vm_compute; discriminate.
  - vm_compute; discriminate.
  - reflexivity.
  - reflexivity.
Defined.

(** X4.  [WithLockMixin.delete] when both locks are acquired: the run is the
    root's entry, the resource's entry, the inherited [delete], the
    resource's exit and the root's exit, so the locks are released in the
    reverse order of their acquisition.  Both holder records are empty at the
    end, and each of the two counters is one above what the inherited
    [delete] left.  What the inherited [delete] returns or raises comes out,
    except that a [BusyError] comes out as one about the root. *)
Theorem delete_releases_in_reverse_order (get_root : string → string) tid self
    (super_delete : M unit) s semr s1 t1 sems s3 t3 r4 s4 t4 :
  let root := get_root self in
  locking_thread_id s !! root ≠ Some tid →
  WithLockMixin._get_semaphore root s = (Return semr, s1, t1) →
  value s1 semr ≠ 0%N →
  state s self ≠ [] →
  let s2 := entered tid root semr s1 in
  locking_thread_id s2 !! self ≠ Some tid →
  WithLockMixin._get_semaphore self s2 = (Return sems, s3, t3) →
  value s3 sems ≠ 0%N →
  super_delete (entered tid self sems s3) = (r4, s4, t4) →
  let r := WithLockMixin.delete get_root tid self super_delete s in
  events (trace_of r)
    = events t1 ++ [EvAcquire semr; EvHolder root (Some tid)]
        ++ events t3 ++ [EvAcquire sems; EvHolder self (Some tid)]
        ++ events t4
        ++ [EvHolder self None; EvRelease sems; EvClose sems;
            EvHolder root None; EvRelease semr; EvClose semr]
  ∧ locking_thread_id (state_of r) !! self = None
  ∧ locking_thread_id (state_of r) !! root = None
  ∧ (sid semr ≠ sid sems →
       value (state_of r) sems = N.succ (value s4 sems)
       ∧ value (state_of r) semr = N.succ (value s4 semr))
  ∧ (∀ a, r4 = Return a → outcome_of r = Return a)
  ∧ (∀ e, r4 = Raise e → (∀ msg, e ≠ BusyError msg) → outcome_of r = Raise e)
  ∧ (∀ msg, r4 = Raise (BusyError msg) →
       outcome_of r
       = Raise (BusyError ("The resource <" +:+ root +:+ "> is locked by thread Unknown."))).
Proof.
  intros root Hh Hs Hv Hg s2 Hh2 Hs2 Hv2 Hb r.
  destruct (_get_semaphore_frame _ _ _ _ _ Hs) as (_ & _ & Hgr & _).
  assert (Hg2 : state s2 self ≠ []).
  { subst s2. unfold entered. by rewrite state_entered, (state_graphs s1 s self Hgr). }
  pose proof (lock_body tid self self None super_delete s2 sems s3 t3 r4 s4 t4
                Hh2 Hs2 Hv2 Hg2 Hb) as Hin.
  subst r. unfold WithLockMixin.delete. fold root.
  rewrite (lock_body _ _ _ _ _ _ _ _ _ _ _ _ Hh Hs Hv Hg Hin).
  unfold outcome_of, trace_of, state_of; cbn [fst snd].
  split.
  { rewrite !events_app, !events_entry_trace, !events_exit_trace.
    by rewrite <- !app_assoc. }
  split.
  { unfold exited; simpl.
    destruct (decide (root = self)) as [->|Hne]; [apply lookup_delete_eq|].
    rewrite lookup_delete_ne by done. apply lookup_delete_eq. }
  split; [apply holder_exited|].
  split.
  { intros Hsid. unfold exited, value; simpl.
    rewrite lookup_insert_ne by done. rewrite !lookup_insert_eq. simpl.
    rewrite lookup_insert_ne by done. done. }
  split; [by intros a ->|].
  split.
  - intros e -> Hnb. destruct e; try done. by destruct (Hnb msg).
  - by intros msg ->.
Qed.

Lemma delete_releases_in_reverse_order_witness :
  locking_thread_id s_fresh !! root_uri ≠ Some 7%Z
  ∧ state s_fresh base_uri ≠ []
  ∧ events (trace_of (WithLockMixin.delete root_of 7 base_uri
                        (call_super "delete" base_uri) s_fresh))
    = [EvOpen root_sem true; EvAcquire root_sem; EvHolder root_uri (Some 7%Z);
       EvOpen (mkSemaphore "/http:--h-b1-" 1) true;
       EvAcquire (mkSemaphore "/http:--h-b1-" 1); EvHolder base_uri (Some 7%Z);
       EvSuper "delete" base_uri;
       EvHolder base_uri None; EvRelease (mkSemaphore "/http:--h-b1-" 1);
       EvClose (mkSemaphore "/http:--h-b1-" 1);
       EvHolder root_uri None; EvRelease root_sem; EvClose root_sem].
Proof.
  assert (H1 : locking_thread_id s_fresh !! root_uri ≠ Some 7%Z) by (vm_compute; discriminate).
  assert (H4 : state s_fresh base_uri ≠ []) by (vm_compute; discriminate).
  split_and!; try assumption.
  pose (s1 := created (get_semaphore_name root_uri) s_fresh).
  pose (sems := mkSemaphore "/http:--h-b1-" 1).
  pose (s3 := created (get_semaphore_name base_uri) (entered 7 root_uri root_sem s1)).
  pose (s4 := entered 7 base_uri sems s3).
  assert (H2 : WithLockMixin._get_semaphore root_uri s_fresh
               = (Return root_sem, s1, [(EvOpen root_sem true, s1)])) by reflexivity.
  assert (H3 : value s1 root_sem ≠ 0%N) by (vm_compute; discriminate).
  assert (H5 : locking_thread_id (entered 7 (root_of base_uri) root_sem s1) !! base_uri
               ≠ Some 7%Z) by (vm_compute; discriminate).
  assert (H6 : WithLockMixin._get_semaphore base_uri (entered 7 (root_of base_uri) root_sem s1)
               = (Return sems, s3, [(EvOpen sems true, s3)])) by reflexivity.
  assert (H7 : value s3 sems ≠ 0%N) by (vm_compute; discriminate).
  assert (H8 : call_super "delete" base_uri (entered 7 base_uri sems s3)
               = (Return (), s4, [(EvSuper "delete" base_uri, s4)])) by reflexivity.
  exact (proj1 (delete_releases_in_reverse_order root_of 7 base_uri
                  (call_super "delete" base_uri) s_fresh root_sem s1 _ sems s3 _ _ _ _
                  H1 H2 H3 H4 H5 H6 H7 H8)).
Defined.

(** X5.  Deleting the root itself ([get_root] of the root is the root): the second
    scope is on the lock that the first one holds, so [delete] is one scope
    of the root's lock around the inherited [delete], with one acquisition. *)
Theorem delete_of_root (get_root : string → string) tid self (super_delete : M unit) s :
  get_root self = self →
  WithLockMixin.delete get_root tid self super_delete s
  = WithLockMixin.lock tid self self None super_delete s.
Proof.
  intros Hroot. unfold WithLockMixin.delete. rewrite Hroot.
  apply (lock_lock_nested tid self [(self, None)]).
Qed.

Lemma delete_of_root_witness :
  root_of root_uri = root_uri
  ∧ acquired (trace_of (WithLockMixin.delete root_of 7 root_uri
                          (call_super "delete" root_uri) s_fresh))
    = [get_semaphore_name root_uri].
Proof.
  assert (H : root_of root_uri = root_uri) by reflexivity.
  split; [assumption|].
  rewrite (delete_of_root root_of 7 root_uri (call_super "delete" root_uri) s_fresh H).
  reflexivity.
Defined.

(** ** [edit], [post_graph] and [create] *)

(** Two bodies that agree wherever the caller is the recorded holder run the
    same under [lock]. *)
Lemma lock_ext {A} tid self resource timeout (m1 m2 : M A) s :
  (∀ s', locking_thread_id s' !! self = Some tid → m1 s' = m2 s') →
  WithLockMixin.lock tid self resource timeout m1 s
  = WithLockMixin.lock tid self resource timeout m2 s.
Proof.
  intros Hm.
  destruct (decide (locking_thread_id s !! self = Some tid)) as [Hh|Hh].
  { rewrite !lock_reentrant by done. by apply Hm. }
  destruct (name_error (get_semaphore_name self)) as [e|] eqn:Hok.
  { by rewrite !(lock_refused _ _ _ _ _ _ _ Hh Hok). }
  destruct (_get_semaphore_returns self s Hok) as (sem & s1 & t1 & Hs & _).
  destruct (decide (value s1 sem = 0%N)) as [Hv|Hv].
  { by rewrite !(lock_busy _ _ _ _ _ _ _ _ _ Hh Hs Hv). }
  destruct (decide (state s resource = [])) as [Hg|Hg].
  { by rewrite !(lock_stale _ _ _ _ _ _ _ _ _ Hh Hs Hv Hg). }
  destruct (m2 (entered tid self sem s1)) as [[r3 s3] t3] eqn:Hb.
  rewrite (lock_body _ _ _ _ m2 _ _ _ _ r3 s3 t3 Hh Hs Hv Hg Hb).
  apply (lock_body _ _ _ _ m1 _ _ _ _ r3 s3 t3 Hh Hs Hv Hg).
  rewrite Hm; [done|]. apply holder_entered.
Qed.

(** X6.  An [edit] of the resource made from inside its [post_graph] (as
    [Base.ack_post] edits the base that is being posted to), after steps that
    keep the holder record: the scope of [edit] does nothing of its own, and
    [post_graph] runs as if the inherited [edit] had been entered directly.
    This holds in every state, whether [post_graph] goes through the
    semaphore, finds it busy, finds the resource gone, or is itself
    reentrant. *)
Theorem edit_inside_post_graph {E A B} tid self (before : M B)
    (super_edit : B → (E → M A) → M A) (body : B → E → M A) s :
  (∀ s0 b s' t', before s0 = (Return b, s', t') →
     locking_thread_id s0 !! self = Some tid →
     locking_thread_id s' !! self = Some tid) →
  WithLockMixin.post_graph tid self
    (before ≫= λ b, WithLockMixin.edit tid self (super_edit b) (body b)) s
  = WithLockMixin.post_graph tid self (before ≫= λ b, super_edit b (body b)) s.
Proof.
  intros Hkeep. unfold WithLockMixin.post_graph. apply lock_ext.
  intros s' Hh. unfold mbind, M_bind, bind.
  destruct (before s') as [[[b|e] s''] t''] eqn:Hbefore; [|done].
  unfold WithLockMixin.edit.
  by rewrite lock_reentrant by (by eapply Hkeep).
Qed.

Lemma edit_inside_post_graph_witness :
  (∀ s0 b s' t', call_super "ack_post" base_uri s0 = (Return b, s', t') →
     locking_thread_id s0 !! base_uri = Some 7%Z →
     locking_thread_id s' !! base_uri = Some 7%Z)
  ∧ events (trace_of (WithLockMixin.post_graph 7 base_uri
                        (call_super "ack_post" base_uri
                           ≫= λ _, WithLockMixin.edit 7 base_uri
                                     (λ k : unit → M unit, k ()) (λ _, mret ()))
                        (s_base 1 None base_graph)))
    = [EvOpen base_sem false; EvAcquire base_sem; EvHolder base_uri (Some 7%Z);
       EvSuper "ack_post" base_uri;
       EvHolder base_uri None; EvRelease base_sem; EvClose base_sem].
Proof.
  assert (H : ∀ s0 b s' t', call_super "ack_post" base_uri s0 = (Return b, s', t') →
     locking_thread_id s0 !! base_uri = Some 7%Z →
     locking_thread_id s' !! base_uri = Some 7%Z).
  { intros s0 b s' t'. unfold call_super. by intros [= _ <- _]. }
  split; [assumption|].
  rewrite (edit_inside_post_graph 7 base_uri (call_super "ack_post" base_uri)
             (λ _ (k : unit → M unit), k ()) (λ _ _, mret ())
             (s_base 1 None base_graph) H).
  reflexivity.
Defined.

(** X7.  [WithLockMixin.create].  When the inherited [create] raises, that is
    the whole run: [reset_lock] is not reached.  When it returns and the
    system refuses the semaphore name of the new resource (the identifier is
    empty or has more than 251 characters), [create] raises the [ValueError]
    of [posix_ipc] after the inherited [create] has run, and nothing else
    changes.  When it returns and the name is accepted, the name is bound to
    a counter of at least 1 (exactly 1 when the name was not bound or the
    counter was 0, as a semaphore left over from an earlier resource of that
    name may be), and a call of [lock] on the new resource by a thread that
    is not its recorded holder acquires the semaphore. *)
Theorem create_resets_lock uri (super_create : M unit) s :
  let nm := get_semaphore_name uri in
  (name_error nm = None ↔ uri ≠ EmptyString ∧ String.length uri ≤ SEM_NAME_MAX)
  ∧ (∀ e s' t', super_create s = (Raise e, s', t') →
       WithLockMixin.create uri super_create s = (Raise e, s', t'))
  ∧ (∀ e s' t', super_create s = (Return (), s', t') →
       name_error nm = Some e →
       WithLockMixin.create uri super_create s = (Raise e, s', t'))
  ∧ (∀ s' t', super_create s = (Return (), s', t') →
       name_error nm = None →
       let r := WithLockMixin.create uri super_create s in
       outcome_of r = Return ()
       ∧ (∃ i, sem_names (state_of r) !! nm = Some i
             ∧ (1 ≤ value (state_of r) (mkSemaphore nm i))%N
             ∧ (sem_names s' !! nm = None
                ∨ sem_names s' !! nm = Some i ∧ value s' (mkSemaphore nm i) = 0%N →
                value (state_of r) (mkSemaphore nm i) = 1%N)
             ∧ (∀ A tid resource timeout (body : M A),
                  locking_thread_id s' !! uri ≠ Some tid →
                  EvAcquire (mkSemaphore nm i)
                    ∈ events (trace_of (WithLockMixin.lock tid uri resource timeout body
                                          (state_of r)))))).
Proof.
  intros nm.
  split; [apply name_error_get_semaphore_name|].
  split.
  { intros e s' t' Hsup. unfold WithLockMixin.create, mbind, M_bind, bind.
    by rewrite Hsup. }
  split.
  { intros e s' t' Hsup He. unfold WithLockMixin.create, mbind, M_bind, bind.
    rewrite Hsup, (reset_lock_refused _ _ _ He). by rewrite app_nil_r. }
  intros s' t' Hsup Hok r.
  assert (Hr : outcome_of r = outcome_of (reset_lock uri s')
               ∧ state_of r = state_of (reset_lock uri s')).
  { subst r. unfold WithLockMixin.create, mbind, M_bind, bind. rewrite Hsup.
    by destruct (reset_lock uri s') as [[? ?] ?]. }
  destruct Hr as [Hout Hst]. clearbody r. rewrite Hout, Hst. clear Hout Hst r.
  destruct (reset_lock_bound uri s' Hok) as (i & Hi & Hvi & Hhi & _). fold nm in Hi, Hvi.
  split.
  { destruct (sem_names s' !! nm) as [j|] eqn:H.
    - destruct (decide (value s' (mkSemaphore nm j) = 0%N)) as [Hv|Hv].
      + by rewrite (reset_lock_zero _ _ _ Hok H Hv).
      + by rewrite (reset_lock_positive _ _ _ Hok H Hv).
    - by rewrite (reset_lock_absent _ _ Hok H). }
  exists i. split; [done|]. split; [lia|]. split.
  + intros [H|[H Hv]].
    * revert Hi. rewrite (reset_lock_absent _ _ Hok H). unfold state_of; cbn [fst snd].
      fold nm. rewrite sem_names_created. intros [= <-]. apply value_created.
    * rewrite (reset_lock_zero _ _ _ Hok H Hv). unfold state_of; cbn [fst snd].
      by rewrite (value_set_sem_value (mkSemaphore nm i)).
  + intros A tid resource timeout body Hh.
    apply (lock_acquires _ _ _ _ _ _ _ (state_of (reset_lock uri s'))
             [(EvOpen (mkSemaphore nm i) false, state_of (reset_lock uri s'))]).
    * by rewrite Hhi.
    * unfold WithLockMixin._get_semaphore. fold nm.
      by rewrite (Semaphore_O_CREAT_present _ _ _ Hok Hi).
    * done.
Qed.

(** The inherited [create] returns, for an identifier of 260 characters and
    for the base. *)
Lemma create_resets_lock_witness :
  call_super "create" long_uri s_fresh
  = (Return (), s_fresh, [(EvSuper "create" long_uri, s_fresh)])
  ∧ name_error (get_semaphore_name long_uri) = Some (ValueError "The name is too long")
  ∧ WithLockMixin.create long_uri (call_super "create" long_uri) s_fresh
    = (Raise (ValueError "The name is too long"), s_fresh,
       [(EvSuper "create" long_uri, s_fresh)]).
Proof.
  assert (H1 : call_super "create" long_uri s_fresh
               = (Return (), s_fresh, [(EvSuper "create" long_uri, s_fresh)]))
    by reflexivity.
  assert (H2 : name_error (get_semaphore_name long_uri)
               = Some (ValueError "The name is too long")) by (by vm_compute).
  split_and!; try assumption.
  exact (proj1 (proj2 (proj2 (create_resets_lock long_uri (call_super "create" long_uri)
                                s_fresh))) _ _ _ H1 H2).
Defined.

(** ** Acknowledging a deletion inside [delete] *)

(** X8.  When the inherited [delete] acknowledges the deletion, that is, when
    [ack_delete] runs inside the two scopes of [WithLockMixin.delete]: the
    semaphore name of the resource is unlinked while the resource's lock is
    still held, the release and the close at the exit of the resource's scope
    come after the unlink, and the root's exit comes last.  [delete] returns,
    the name is unbound at the end, both holder records are empty, and the
    next [_get_semaphore] of the resource creates a semaphore with counter
    1. *)
Theorem delete_with_ack_delete (get_root : string → string) tid self
    (super_ack_delete : M unit) s semr s1 t1 sems s3 t3 s4 t4 :
  let root := get_root self in
  locking_thread_id s !! root ≠ Some tid →
  WithLockMixin._get_semaphore root s = (Return semr, s1, t1) →
  value s1 semr ≠ 0%N →
  state s self ≠ [] →
  let s2 := entered tid root semr s1 in
  locking_thread_id s2 !! self ≠ Some tid →
  WithLockMixin._get_semaphore self s2 = (Return sems, s3, t3) →
  value s3 sems ≠ 0%N →
  super_ack_delete (entered tid self sems s3) = (Return (), s4, t4) →
  let r := WithLockMixin.delete get_root tid self
             (WithLockMixin.ack_delete self super_ack_delete) s in
  outcome_of r = Return ()
  ∧ (∃ sem c, name sem = get_semaphore_name self
        ∧ events (trace_of r)
          = events t1 ++ [EvAcquire semr; EvHolder root (Some tid)]
              ++ events t3 ++ [EvAcquire sems; EvHolder self (Some tid)]
              ++ events t4
              ++ [EvOpen sem c; EvUnlink sem;
                  EvHolder self None; EvRelease sems; EvClose sems;
                  EvHolder root None; EvRelease semr; EvClose semr])
  ∧ sem_names (state_of r) !! get_semaphore_name self = None
  ∧ locking_thread_id (state_of r) !! self = None
  ∧ locking_thread_id (state_of r) !! root = None
  ∧ (∃ s', WithLockMixin._get_semaphore self (state_of r)
           = (Return (mkSemaphore (get_semaphore_name self) (sem_next (state_of r))), s',
              [(EvOpen (mkSemaphore (get_semaphore_name self) (sem_next (state_of r))) true,
                s')])
        ∧ value s' (mkSemaphore (get_semaphore_name self) (sem_next (state_of r))) = 1%N).
Proof.
  intros root Hh Hs Hv Hg s2 Hh2 Hs2 Hv2 Hsup r.
  assert (Hok := Semaphore_O_CREAT_accepted _ _ _ _ _ _ Hs2).
  destruct (ack_delete_run self _ _ _ _ Hok Hsup)
    as (sem & s5 & t5 & s6 & Hs5 & [c Hc] & Hn & Hnone & Hack).
  destruct (_get_semaphore_frame _ _ _ _ _ Hs) as (_ & _ & Hgr & _).
  assert (Hg2 : state s2 self ≠ []).
  { subst s2. unfold entered. by rewrite state_entered, (state_graphs s1 s self Hgr). }
  pose proof (lock_body tid self self None _ s2 sems s3 t3 _ _ _ Hh2 Hs2 Hv2 Hg2 Hack) as Hin.
  subst r. unfold WithLockMixin.delete. fold root.
  rewrite (lock_body _ _ _ _ _ _ _ _ _ _ _ _ Hh Hs Hv Hg Hin).
  unfold outcome_of, trace_of, state_of; cbn [fst snd].
  assert (Hfinal : sem_names (exited root semr (exited self sems s6))
                     !! get_semaphore_name self = None) by done.
  split; [done|].
  split.
  { exists sem, c. split; [done|].
    rewrite !events_app, !events_entry_trace, !events_exit_trace, Hc.
    by rewrite <- !app_assoc. }
  split; [done|].
  split.
  { unfold exited; simpl.
    destruct (decide (root = self)) as [->|Hne]; [apply lookup_delete_eq|].
    rewrite lookup_delete_ne by done. apply lookup_delete_eq. }
  split; [apply holder_exited|].
  eexists. unfold WithLockMixin._get_semaphore.
  rewrite (Semaphore_O_CREAT_absent _ _ Hok Hfinal).
  split; [done|]. apply value_created.
Qed.

Lemma delete_with_ack_delete_witness :
  locking_thread_id s_fresh !! root_uri ≠ Some 7%Z
  ∧ state s_fresh base_uri ≠ []
  ∧ sem_names (state_of (WithLockMixin.delete root_of 7 base_uri
                           (WithLockMixin.ack_delete base_uri
                              (call_super "ack_delete" base_uri)) s_fresh))
      !! get_semaphore_name base_uri = None.
Proof.
  assert (H1 : locking_thread_id s_fresh !! root_uri ≠ Some 7%Z) by (vm_compute; discriminate).
  assert (H4 : state s_fresh base_uri ≠ []) by (vm_compute; discriminate).
  split_and!; try assumption.
  pose (s1 := created (get_semaphore_name root_uri) s_fresh).
  pose (sems := mkSemaphore "/http:--h-b1-" 1).
  pose (s3 := created (get_semaphore_name base_uri) (entered 7 root_uri root_sem s1)).
  pose (s4 := entered 7 base_uri sems s3).
  assert (H2 : WithLockMixin._get_semaphore root_uri s_fresh
               = (Return root_sem, s1, [(EvOpen root_sem true, s1)])) by reflexivity.
  assert (H3 : value s1 root_sem ≠ 0%N) by (vm_compute; discriminate).
  assert (H5 : locking_thread_id (entered 7 (root_of base_uri) root_sem s1) !! base_uri
               ≠ Some 7%Z) by (vm_compute; discriminate).
  assert (H6 : WithLockMixin._get_semaphore base_uri (entered 7 (root_of base_uri) root_sem s1)
               = (Return sems, s3, [(EvOpen sems true, s3)])) by reflexivity.
  assert (H7 : value s3 sems ≠ 0%N) by (vm_compute; discriminate).
  assert (H8 : call_super "ack_delete" base_uri (entered 7 base_uri sems s3)
               = (Return (), s4, [(EvSuper "ack_delete" base_uri, s4)])) by reflexivity.
  exact (proj1 (proj2 (proj2 (delete_with_ack_delete root_of 7 base_uri
                  (call_super "ack_delete" base_uri) s_fresh root_sem s1 _ sems s3 _ _ _
                  H1 H2 H3 H4 H5 H6 H7 H8)))).
Defined.

(** ** [get_lock] of [base.py] *)

Lemma sem_values_restored sem s1 :
  value s1 sem ≠ 0%N →
  <[sid sem:=N.succ (N.pred (value s1 sem))]>
    (<[sid sem:=N.pred (value s1 sem)]> (sem_values s1)) = sem_values s1.
Proof.
  intros Hv. rewrite succ_pred_value by done.
  rewrite insert_insert_eq. apply insert_id.
  unfold value in *. by destruct (sem_values s1 !! sid sem).
Qed.

(** X9.  [get_lock], given the semaphore it opens.  On a counter of 0 it raises
    the [BusyError] of [posix_ipc] as it is, without running the body and
    without releasing anything.  Otherwise the body runs with the counter
    decremented and no holder recorded; whatever the body does, return or
    raise (a [BusyError] too), comes out unchanged after one release; the
    handle is not closed and no holder record is touched. *)
Theorem get_lock_releases {A} base_name timeout (body : M A) s sem s1 t1 :
  Semaphore_O_CREAT (get_semaphore_name base_name) 1 s = (Return sem, s1, t1) →
  let r := get_lock base_name timeout body s in
  let b := body (set_sem_value (sid sem) (N.pred (value s1 sem)) s1) in
  (value s1 sem = 0%N →
     r = (Raise (BusyError "Semaphore is busy"), s1,
          t1 ++ [(EvBusy sem (default (30 : Q) timeout), s1)]))
  ∧ (value s1 sem ≠ 0%N →
       outcome_of r = outcome_of b
       ∧ events (trace_of r)
         = events t1 ++ [EvAcquire sem] ++ events (trace_of b) ++ [EvRelease sem]
       ∧ value (state_of r) sem = N.succ (value (state_of b) sem)
       ∧ locking_thread_id (state_of r) = locking_thread_id (state_of b)
       ∧ locking_thread_id (set_sem_value (sid sem) (N.pred (value s1 sem)) s1)
         = locking_thread_id s).
Proof.
  intros Hs r b. split; intros Hv.
  - by apply get_lock_busy.
  - subst r. destruct b as [[r3 s3] t3] eqn:Hb.
    rewrite (get_lock_body _ _ _ _ _ _ _ r3 s3 t3 Hs Hv Hb).
    unfold outcome_of, trace_of, state_of; cbn [fst snd].
    split; [done|]. split; [by rewrite !events_app|].
    split; [by rewrite value_set_sem_value|]. split; [done|].
    simpl. unfold Semaphore_O_CREAT in Hs.
    destruct (name_error (get_semaphore_name base_name)); [done|].
    destruct (sem_names s !! get_semaphore_name base_name); by injection Hs as _ <- _.
Qed.

Lemma get_lock_releases_witness :
  Semaphore_O_CREAT (get_semaphore_name base_uri) 1 (s_base 1 None base_graph)
  = (Return base_sem, s_base 1 None base_graph,
     [(EvOpen base_sem false, s_base 1 None base_graph)])
  ∧ value (s_base 1 None base_graph) base_sem ≠ 0%N
  ∧ outcome_of (get_lock base_uri None (raise (BusyError "inner") : M unit)
                  (s_base 1 None base_graph))
    = Raise (BusyError "inner").
Proof.
  assert (H : Semaphore_O_CREAT (get_semaphore_name base_uri) 1 (s_base 1 None base_graph)
              = (Return base_sem, s_base 1 None base_graph,
                 [(EvOpen base_sem false, s_base 1 None base_graph)])) by reflexivity.
  assert (Hv : value (s_base 1 None base_graph) base_sem ≠ 0%N) by (vm_compute; discriminate).
  split_and!; try assumption.
  exact (proj1 (proj2 (get_lock_releases base_uri None (raise (BusyError "inner") : M unit)
                         _ base_sem _ _ H) Hv)).
Defined.

(** X10.  [get_lock] is not reentrant.  A second [get_lock] on the same name inside
    the first, entered from a counter of 1, finds the counter at 0 and times
    out: the [BusyError] of [posix_ipc] comes out of both scopes, the body is
    not run (the run is the same for every body), and the release of the
    outer scope puts every counter back. *)
Theorem get_lock_not_reentrant {A} base_name timeout timeout' (body : M A) s sem s1 t1 :
  Semaphore_O_CREAT (get_semaphore_name base_name) 1 s = (Return sem, s1, t1) →
  value s1 sem = 1%N →
  let r := get_lock base_name timeout (get_lock base_name timeout' body) s in
  outcome_of r = Raise (BusyError "Semaphore is busy")
  ∧ events (trace_of r)
    = events t1 ++ [EvAcquire sem; EvOpen sem false;
                    EvBusy sem (default (30 : Q) timeout'); EvRelease sem]
  ∧ sem_values (state_of r) = sem_values s1
  ∧ (∀ body' : M A, get_lock base_name timeout (get_lock base_name timeout' body') s = r).
Proof.
  intros Hs Hv r.
  assert (Hv1 : value s1 sem ≠ 0%N) by (by rewrite Hv).
  set (sa := set_sem_value (sid sem) (N.pred (value s1 sem)) s1).
  assert (Hs' : Semaphore_O_CREAT (get_semaphore_name base_name) 1 sa
                = (Return sem, sa, [(EvOpen sem false, sa)])).
  { by apply (_get_semaphore_again base_name s sem s1 t1 sa Hs). }
  assert (Hva : value sa sem = 0%N).
  { subst sa. by rewrite value_set_sem_value, Hv. }
  assert (Hin : ∀ body' : M A, get_lock base_name timeout' body' sa
                = (Raise (BusyError "Semaphore is busy"), sa,
                   [(EvOpen sem false, sa)] ++ [(EvBusy sem (default (30 : Q) timeout'), sa)])).
  { intros body'. by apply get_lock_busy. }
  assert (Hout : ∀ body' : M A,
            get_lock base_name timeout (get_lock base_name timeout' body') s
            = (Raise (BusyError "Semaphore is busy"),
               set_sem_value (sid sem) (N.succ (value sa sem)) sa,
               t1 ++ [(EvAcquire sem, sa)]
                  ++ ([(EvOpen sem false, sa)] ++ [(EvBusy sem (default (30 : Q) timeout'), sa)])
                  ++ [(EvRelease sem, set_sem_value (sid sem) (N.succ (value sa sem)) sa)])).
  { intros body'. apply (get_lock_body _ _ _ _ _ _ _ _ _ _ Hs Hv1). apply Hin. }
  subst r. rewrite (Hout body).
  unfold outcome_of, trace_of, state_of; cbn [fst snd].
  split; [done|]. split; [by rewrite !events_app|].
  split; [|intros body'; apply Hout].
  subst sa. simpl. rewrite value_set_sem_value. by apply sem_values_restored.
Qed.

Lemma get_lock_not_reentrant_witness :
  Semaphore_O_CREAT (get_semaphore_name base_uri) 1 (s_base 1 None base_graph)
  = (Return base_sem, s_base 1 None base_graph,
     [(EvOpen base_sem false, s_base 1 None base_graph)])
  ∧ value (s_base 1 None base_graph) base_sem = 1%N
  ∧ outcome_of (get_lock base_uri None (get_lock base_uri None (call_super "delete" base_uri))
                  (s_base 1 None base_graph))
    = Raise (BusyError "Semaphore is busy").
Proof.
  assert (H1 : Semaphore_O_CREAT (get_semaphore_name base_uri) 1 (s_base 1 None base_graph)
               = (Return base_sem, s_base 1 None base_graph,
                  [(EvOpen base_sem false, s_base 1 None base_graph)])) by reflexivity.
  assert (H2 : value (s_base 1 None base_graph) base_sem = 1%N) by reflexivity.
  split_and!; try assumption.
  exact (proj1 (get_lock_not_reentrant base_uri None None (call_super "delete" base_uri)
                  _ base_sem _ _ H1 H2)).
Defined.

(** X11.  [get_lock] and [WithLockMixin.lock] use the same semaphore for an
    identifier, but [get_lock] records no holder.  So, from a counter of 1
    and for a thread that is not the recorded holder, a scope of [lock]
    entered inside a scope of [get_lock] on the same identifier times out,
    and so does a scope of [get_lock] inside a scope of [lock]; in both
    orders the body is not run (the run is the same for every body), a
    [BusyError] about the identifier comes out and every counter is put
    back. *)
Theorem get_lock_and_lock_exclude {A} tid u resource timeout timeout' (body : M A)
    s sem s1 t1 :
  Semaphore_O_CREAT (get_semaphore_name u) 1 s = (Return sem, s1, t1) →
  value s1 sem = 1%N →
  locking_thread_id s !! u ≠ Some tid →
  let r := get_lock u timeout (WithLockMixin.lock tid u resource timeout' body) s in
  let r' := WithLockMixin.lock tid u resource timeout' (get_lock u timeout body) s in
  (outcome_of r
     = Raise (BusyError ("The resource <" +:+ u +:+ "> is locked by thread "
                           +:+ thread_id_text (locking_thread_id s !! u) +:+ "."))
   ∧ events (trace_of r)
     = events t1 ++ [EvAcquire sem; EvOpen sem false;
                     EvBusy sem (default WithLockMixin.LOCK_DEFAULT_TIMEOUT timeout');
                     EvRelease sem]
   ∧ sem_values (state_of r) = sem_values s1
   ∧ (∀ body' : M A,
        get_lock u timeout (WithLockMixin.lock tid u resource timeout' body') s = r))
  ∧ (state s resource ≠ [] →
     outcome_of r'
       = Raise (BusyError ("The resource <" +:+ u +:+ "> is locked by thread Unknown."))
     ∧ events (trace_of r')
       = events t1 ++ [EvAcquire sem; EvHolder u (Some tid); EvOpen sem false;
                       EvBusy sem (default (30 : Q) timeout);
                       EvHolder u None; EvRelease sem; EvClose sem]
     ∧ sem_values (state_of r') = sem_values s1
     ∧ (∀ body' : M A,
          WithLockMixin.lock tid u resource timeout' (get_lock u timeout body') s = r')).
Proof.
  intros Hs Hv Hh r r'.
  assert (Hv1 : value s1 sem ≠ 0%N) by (by rewrite Hv).
  assert (Hl : locking_thread_id s1 = locking_thread_id s).
  { by destruct (_get_semaphore_frame u s sem s1 t1 Hs) as (_ & ? & _). }
  split.
  - set (sa := set_sem_value (sid sem) (N.pred (value s1 sem)) s1).
    assert (Hs' : WithLockMixin._get_semaphore u sa = (Return sem, sa, [(EvOpen sem false, sa)])).
    { by apply (_get_semaphore_again u s sem s1 t1 sa Hs). }
    assert (Hva : value sa sem = 0%N).
    { subst sa. by rewrite value_set_sem_value, Hv. }
    assert (Hha : locking_thread_id sa !! u ≠ Some tid).
    { subst sa. simpl. by rewrite Hl. }
    assert (Hout : ∀ body' : M A,
       get_lock u timeout (WithLockMixin.lock tid u resource timeout' body') s
       = (Raise (BusyError (busy_message u (locking_thread_id sa !! u))),
          set_sem_value (sid sem) (N.succ (value sa sem)) sa,
          t1 ++ [(EvAcquire sem, sa)]
             ++ ([(EvOpen sem false, sa)]
                   ++ [(EvBusy sem (default WithLockMixin.LOCK_DEFAULT_TIMEOUT timeout'), sa)])
             ++ [(EvRelease sem, set_sem_value (sid sem) (N.succ (value sa sem)) sa)])).
    { intros body'. apply (get_lock_body _ _ _ _ _ _ _ _ _ _ Hs Hv1).
      apply (lock_busy _ _ _ _ _ _ _ _ _ Hha Hs' Hva). }
    subst r. rewrite (Hout body).
    unfold outcome_of, trace_of, state_of; cbn [fst snd].
    split; [subst sa; simpl; by rewrite Hl|].
    split; [by rewrite !events_app|].
    split; [|intros body'; apply Hout].
    subst sa. simpl. rewrite value_set_sem_value. by apply sem_values_restored.
  - intros Hg.
    set (se := entered tid u sem s1).
    assert (Hs' : Semaphore_O_CREAT (get_semaphore_name u) 1 se
                  = (Return sem, se, [(EvOpen sem false, se)])).
    { by apply (_get_semaphore_again u s sem s1 t1 se Hs). }
    assert (Hve : value se sem = 0%N).
    { subst se. by rewrite value_entered, Hv. }
    assert (Hout : ∀ body' : M A,
       WithLockMixin.lock tid u resource timeout' (get_lock u timeout body') s
       = (reraised u (Raise (BusyError "Semaphore is busy")), exited u sem se,
          t1 ++ entry_trace tid u sem s1
             ++ ([(EvOpen sem false, se)] ++ [(EvBusy sem (default (30 : Q) timeout), se)])
             ++ exit_trace u sem se)).
    { intros body'. apply (lock_body _ _ _ _ _ _ _ _ _ _ _ _ Hh Hs Hv1 Hg).
      by apply get_lock_busy. }
    subst r'. rewrite (Hout body).
    unfold outcome_of, trace_of, state_of; cbn [fst snd].
    split; [done|].
    split; [by rewrite !events_app, events_entry_trace, events_exit_trace|].
    split; [by apply sem_values_exited_entered|intros body'; apply Hout].
Qed.

Lemma get_lock_and_lock_exclude_witness :
  Semaphore_O_CREAT (get_semaphore_name base_uri) 1 (s_base 1 None base_graph)
  = (Return base_sem, s_base 1 None base_graph,
     [(EvOpen base_sem false, s_base 1 None base_graph)])
  ∧ value (s_base 1 None base_graph) base_sem = 1%N
  ∧ locking_thread_id (s_base 1 None base_graph) !! base_uri ≠ Some 7%Z
  ∧ outcome_of (get_lock base_uri None
                  (WithLockMixin.lock 7 base_uri base_uri None (call_super "delete" base_uri))
                  (s_base 1 None base_graph))
    = Raise (BusyError "The resource <http://h/b1/> is locked by thread Unknown.").
Proof.
  assert (H1 : Semaphore_O_CREAT (get_semaphore_name base_uri) 1 (s_base 1 None base_graph)
               = (Return base_sem, s_base 1 None base_graph,
                  [(EvOpen base_sem false, s_base 1 None base_graph)])) by reflexivity.
  assert (H2 : value (s_base 1 None base_graph) base_sem = 1%N) by reflexivity.
  assert (H3 : locking_thread_id (s_base 1 None base_graph) !! base_uri ≠ Some 7%Z)
    by (vm_compute; discriminate).
  split_and!; try assumption.
  exact (proj1 (proj1 (get_lock_and_lock_exclude 7 base_uri base_uri None None
                         (call_super "delete" base_uri) _ base_sem _ _ H1 H2 H3))).
Defined.

(** ** [Base.check_deletable] and [Base.ack_post] *)

Lemma Graph_value_None g subject predicate :
  (∀ o, (subject, predicate, o) ∉ g) → Graph_value g subject predicate = None.
Proof.
  intros Hno. unfold Graph_value.
  destruct (List.find _ g) as [[[su pr] o]|] eqn:Hfind; [|done].
  apply List.find_some in Hfind as [Hin Hdec]. exfalso.
  apply bool_decide_eq_true in Hdec as [Hs Hp]. simpl in Hs, Hp. subst.
  by apply (Hno o), list_elem_of_In.
Qed.

Lemma Graph_value_Some g subject predicate o :
  (subject, predicate, o) ∈ g →
  ∃ o', Graph_value g subject predicate = Some o' ∧ (subject, predicate, o') ∈ g.
Proof.
  intros Hin. unfold Graph_value.
  destruct (List.find _ g) as [[[su pr] o']|] eqn:Hfind.
  - apply List.find_some in Hfind as [Hin' Hdec].
    apply bool_decide_eq_true in Hdec as [Hs Hp]. simpl in Hs, Hp. subst.
    exists o'. split; [done|]. by apply list_elem_of_In.
  - exfalso. apply list_elem_of_In in Hin.
    pose proof (List.find_none _ _ Hfind _ Hin) as Hdec.
    apply bool_decide_eq_false in Hdec. by apply Hdec.
Qed.

(** X12.  [Base.check_deletable], when the inherited check returns a diagnosis,
    with [truth] the truth value that [rdflib] gives a node: it only reads; a
    base whose contained objects are all true gets the inherited diagnosis
    followed by the message about a non-empty base; a base that contains
    nothing gets the inherited diagnosis as it is, and so does a base whose
    only contained objects are false (a literal of value 0, an empty
    text). *)
Theorem check_deletable_only_empty_base KTBS_contains (truth : string → bool) self
    (super_check_deletable : M (list string)) s diag s' t' :
  super_check_deletable s = (Return diag, s', t') →
  let r := Base.check_deletable KTBS_contains truth self super_check_deletable s in
  state_of r = s'
  ∧ trace_of r = t'
  ∧ ((∃ o, (self, KTBS_contains, o) ∈ state s' self) →
     (∀ o, (self, KTBS_contains, o) ∈ state s' self → truth o = true) →
       outcome_of r = Return (diag ++ ["Can not delete non-empty Base"]))
  ∧ ((∀ o, (self, KTBS_contains, o) ∈ state s' self → truth o = false) →
       outcome_of r = Return diag).
Proof.
  intros Hsup r.
  assert (Hr : r = (Return (if from_option truth false
                                 (Graph_value (state s' self) self KTBS_contains)
                            then diag ++ ["Can not delete non-empty Base"] else diag),
                    s', t')).
  { subst r. unfold Base.check_deletable, mbind, M_bind, bind. rewrite Hsup.
    unfold get_state. destruct (from_option _ _ _); simpl; by rewrite !app_nil_r. }
  rewrite Hr. unfold outcome_of, trace_of, state_of; cbn [fst snd].
  split; [done|]. split; [done|]. split.
  - intros [o Ho] Hobj. destruct (Graph_value_Some _ _ _ _ Ho) as (o' & -> & Ho').
    simpl. by rewrite (Hobj _ Ho').
  - intros Hno.
    destruct (Graph_value (state s' self) self KTBS_contains) as [o|] eqn:Hval; [|done].
    assert (Hin : (self, KTBS_contains, o) ∈ state s' self).
    { unfold Graph_value in Hval.
      destruct (List.find _ (state s' self)) as [[[su pr] o']|] eqn:Hfind; [|done].
      apply List.find_some in Hfind as [Hin Hdec].
      apply bool_decide_eq_true in Hdec as [Hs Hp]. simpl in Hs, Hp, Hval.
      simplify_eq. by apply list_elem_of_In. }
    simpl. by rewrite (Hno _ Hin).
Qed.

(** A base that contains a trace, and a base whose only contained object is
    the literal 0, with the truth of a node decided by [nonzero]. *)
Lemma check_deletable_only_empty_base_witness :
  @ret (list string) [] (s_base 1 None [(base_uri, "ktbs:contains", "http://h/b1/t1/")])
  = (Return ([] : list string), s_base 1 None [(base_uri, "ktbs:contains", "http://h/b1/t1/")],
     [])
  ∧ outcome_of (Base.check_deletable "ktbs:contains" nonzero base_uri (@ret (list string) [])
                  (s_base 1 None [(base_uri, "ktbs:contains", "http://h/b1/t1/")]))
    = Return ["Can not delete non-empty Base"]
  ∧ outcome_of (Base.check_deletable "ktbs:contains" nonzero base_uri (@ret (list string) [])
                  (s_base 1 None [(base_uri, "ktbs:contains", "0")]))
    = Return [].
Proof.
  assert (H : @ret (list string) [] (s_base 1 None [(base_uri, "ktbs:contains", "http://h/b1/t1/")])
              = (Return ([] : list string),
                 s_base 1 None [(base_uri, "ktbs:contains", "http://h/b1/t1/")], []))
    by reflexivity.
  split; [assumption|]. split; [|reflexivity].
  refine (proj1 (proj2 (proj2 (check_deletable_only_empty_base "ktbs:contains" nonzero base_uri
                                 (@ret (list string) []) _ [] _ _ H))) _ _).
  - exists "http://h/b1/t1/".
    change ((base_uri, "ktbs:contains", "http://h/b1/t1/")
              ∈ [(base_uri, "ktbs:contains", "http://h/b1/t1/")]).
    apply list_elem_of_here.
  - intros o Ho. change ((base_uri, "ktbs:contains", o)
                           ∈ [(base_uri, "ktbs:contains", "http://h/b1/t1/")]) in Ho.
    apply list_elem_of_singleton in Ho. by simplify_eq.
Defined.

Lemma ack_post_types_skip NS rdf_type allowed created other types editable :
  Forall (λ t, String.prefix NS t = false) other →
  Base.ack_post_types NS rdf_type allowed created (other ++ types) editable
  = Base.ack_post_types NS rdf_type allowed created types editable.
Proof.
  induction 1 as [|t other Ht _ IH]; [done|]. simpl. by rewrite Ht.
Qed.

(** X13.  The edition that [Base.ack_post] makes.  The triple saying that the base
    contains the created resource is added first.  Then the first type of the
    created resource that starts with the kTBS namespace decides, whatever
    the types after it: when it is one of the four types a base can contain,
    it is added as the type of the created resource and nothing else is;
    when it is not, the assertion fails.  When no type starts with the
    namespace, the assertion of the [else] clause fails. *)
Theorem ack_post_first_ktbs_type KTBS_NS_URI KTBS_contains RDF_type KTBS_types
    self created new_graph editable :
  let r := Base.ack_post_editing KTBS_NS_URI KTBS_contains RDF_type KTBS_types
             self created new_graph editable in
  let editable1 := (Graph_add (self, KTBS_contains, created) editable).2 in
  (∀ other typ rest,
     Graph_objects new_graph created RDF_type = other ++ typ :: rest →
     Forall (λ t, String.prefix KTBS_NS_URI t = false) other →
     String.prefix KTBS_NS_URI typ = true →
     (typ ∈ KTBS_types →
        r = (Return (), (Graph_add (created, RDF_type, typ) editable1).2))
     ∧ (typ ∉ KTBS_types → r = (Raise (Exception "AssertionError"), editable1)))
  ∧ (Forall (λ t, String.prefix KTBS_NS_URI t = false)
            (Graph_objects new_graph created RDF_type) →
     r = (Raise (Exception "AssertionError: No valid rdf:type was found for posted resource"),
          editable1)).
Proof.
  intros r editable1. subst r. unfold Base.ack_post_editing.
  change (Graph_add (self, KTBS_contains, created) editable) with (Return (), editable1).
  split.
  - intros other typ rest -> Hother Htyp.
    rewrite (ack_post_types_skip _ _ _ _ _ _ _ Hother). simpl. rewrite Htyp.
    split; intros Hin.
    + by rewrite bool_decide_eq_true_2.
    + by rewrite bool_decide_eq_false_2.
  - intros Hnone.
    rewrite <- (app_nil_r (Graph_objects new_graph created RDF_type)).
    by rewrite (ack_post_types_skip _ _ _ _ _ _ _ Hnone).
Qed.

Lemma ack_post_first_ktbs_type_witness :
  Graph_objects [("http://h/b1/t1/", "rdf:type", "ex:Thing");
                 ("http://h/b1/t1/", "rdf:type", "ktbs#Foo");
                 ("http://h/b1/t1/", "rdf:type", "ktbs#StoredTrace")]
                "http://h/b1/t1/" "rdf:type"
  = ["ex:Thing"] ++ ("ktbs#Foo" :: ["ktbs#StoredTrace"])
  ∧ ("ktbs#Foo" ∉ ["ktbs#TraceModel"; "ktbs#Method"; "ktbs#StoredTrace";
                   "ktbs#ComputedTrace"])
  ∧ Base.ack_post_editing "ktbs#" "ktbs#contains" "rdf:type"
      ["ktbs#TraceModel"; "ktbs#Method"; "ktbs#StoredTrace"; "ktbs#ComputedTrace"]
      base_uri "http://h/b1/t1/"
      [("http://h/b1/t1/", "rdf:type", "ex:Thing");
       ("http://h/b1/t1/", "rdf:type", "ktbs#Foo");
       ("http://h/b1/t1/", "rdf:type", "ktbs#StoredTrace")]
      base_graph
    = (Raise (Exception "AssertionError"),
       base_graph ++ [(base_uri, "ktbs#contains", "http://h/b1/t1/")]).
Proof.
  assert (H1 : Graph_objects [("http://h/b1/t1/", "rdf:type", "ex:Thing");
                 ("http://h/b1/t1/", "rdf:type", "ktbs#Foo");
                 ("http://h/b1/t1/", "rdf:type", "ktbs#StoredTrace")]
                "http://h/b1/t1/" "rdf:type"
               = ["ex:Thing"] ++ ("ktbs#Foo" :: ["ktbs#StoredTrace"])) by reflexivity.
  assert (H2 : "ktbs#Foo" ∉ ["ktbs#TraceModel"; "ktbs#Method"; "ktbs#StoredTrace";
                              "ktbs#ComputedTrace"]).
  { rewrite !not_elem_of_cons. split_and!; try discriminate. apply not_elem_of_nil. }
  split_and!; try assumption.
  refine (proj2 (proj1 (ack_post_first_ktbs_type "ktbs#" "ktbs#contains" "rdf:type"
                          ["ktbs#TraceModel"; "ktbs#Method"; "ktbs#StoredTrace";
                           "ktbs#ComputedTrace"]
                          base_uri "http://h/b1/t1/" _ base_graph)
                   ["ex:Thing"] "ktbs#Foo" ["ktbs#StoredTrace"] H1 _ _) H2).
  - by repeat constructor.
  - reflexivity.
Defined.

(** ** Identifiers that share a semaphore *)

Lemma replace_replace old new s :
  replace old new (replace old new s) = replace old new s.
Proof.
  induction s as [|c rest IH]; simpl; [done|]. rewrite IH. f_equal.
  repeat case_decide; congruence.
Qed.

Lemma replace_changes old new s :
  old ≠ new → char_in old s = true → replace old new s ≠ s.
Proof.
  intros Hne. induction s as [|c rest IH]; simpl; [done|].
  case_decide as Hc.
  - intros _ [= Hn _]. congruence.
  - intros Hin [= Hrest]. by apply IH.
Qed.

(** X14.  An identifier that contains ["/"] and the identifier got from it by
    writing ["-"] for every ["/"] are different resources with the same
    semaphore name.  So while a thread is inside the lock of the first,
    acquired from a counter of 1, a call of [lock] on the second by a thread
    that is not its recorded holder times out, with a [BusyError] about the
    second resource, and its body does not run. *)
Theorem slash_and_dash_share_a_semaphore {A} t1 t2 u resource timeout (body : M A)
    s sem s1 tr1 :
  char_in "/" u = true →
  WithLockMixin._get_semaphore u s = (Return sem, s1, tr1) →
  value s1 sem = 1%N →
  locking_thread_id s1 !! replace "/" "-" u ≠ Some t2 →
  let u' := replace "/" "-" u in
  let inside := entered t1 u sem s1 in
  u' ≠ u
  ∧ get_semaphore_name u' = get_semaphore_name u
  ∧ WithLockMixin.lock t2 u' resource timeout body inside
    = (Raise (BusyError ("The resource <" +:+ u' +:+ "> is locked by thread "
                           +:+ thread_id_text (locking_thread_id s1 !! u') +:+ ".")),
       inside,
       [(EvOpen sem false, inside);
        (EvBusy sem (default WithLockMixin.LOCK_DEFAULT_TIMEOUT timeout), inside)]).
Proof.
  intros Hin Hs Hv Hh u' inside.
  assert (Hne : u' ≠ u) by (by apply replace_changes).
  assert (Hname : get_semaphore_name u' = get_semaphore_name u).
  { unfold get_semaphore_name, u'. by rewrite replace_replace. }
  split; [done|]. split; [done|].
  destruct (_get_semaphore_bound _ _ _ _ _ Hs) as [Hsem Hb].
  assert (Hs' : WithLockMixin._get_semaphore u' inside
                = (Return sem, inside, [(EvOpen sem false, inside)])).
  { unfold WithLockMixin._get_semaphore. rewrite Hname.
    rewrite (Semaphore_O_CREAT_present _ _ (sid sem))
      by eauto using Semaphore_O_CREAT_accepted.
    by rewrite <- Hsem. }
  assert (Hl : locking_thread_id inside !! u' = locking_thread_id s1 !! u').
  { unfold inside, entered; simpl. by rewrite lookup_insert_ne. }
  assert (Hh' : locking_thread_id inside !! u' ≠ Some t2) by (by rewrite Hl).
  assert (Hv' : value inside sem = 0%N).
  { unfold inside. by rewrite value_entered, Hv. }
  rewrite (lock_busy _ _ _ _ _ _ _ _ _ Hh' Hs' Hv'). by rewrite Hl.
Qed.

Lemma slash_and_dash_share_a_semaphore_witness :
  char_in "/" base_uri = true
  ∧ WithLockMixin._get_semaphore base_uri (s_base 1 None base_graph)
    = (Return base_sem, s_base 1 None base_graph,
       [(EvOpen base_sem false, s_base 1 None base_graph)])
  ∧ value (s_base 1 None base_graph) base_sem = 1%N
  ∧ locking_thread_id (s_base 1 None base_graph) !! replace "/" "-" base_uri ≠ Some 9%Z
  ∧ outcome_of (WithLockMixin.lock 9 "http:--h-b1-" "http:--h-b1-" None
                  (call_super "edit" "http:--h-b1-")
                  (entered 7 base_uri base_sem (s_base 1 None base_graph)))
    = Raise (BusyError "The resource <http:--h-b1-> is locked by thread Unknown.").
Proof.
  assert (H1 : char_in "/" base_uri = true) by reflexivity.
  assert (H2 : WithLockMixin._get_semaphore base_uri (s_base 1 None base_graph)
               = (Return base_sem, s_base 1 None base_graph,
                  [(EvOpen base_sem false, s_base 1 None base_graph)])) by reflexivity.
  assert (H3 : value (s_base 1 None base_graph) base_sem = 1%N) by reflexivity.
  assert (H4 : locking_thread_id (s_base 1 None base_graph) !! replace "/" "-" base_uri
               ≠ Some 9%Z) by (vm_compute; discriminate).
  split_and!; try assumption.
  exact (f_equal outcome_of
           (proj2 (proj2 (slash_and_dash_share_a_semaphore 7 9 base_uri "http:--h-b1-" None
                            (call_super "edit" "http:--h-b1-") _ base_sem _ _
                            H1 H2 H3 H4)))).
Defined.
